(** * The adaptive scheduling and points engine of the daily planner

    A shallow embedding of the pure core of the planner component:
    [calcTaskPoints], [scoreTask], [pickVariant], [buildDayPlan] and the
    learned-history update performed by [submitReview].

    Numbers.  JavaScript numbers are IEEE doubles.  Quantities that the
    program keeps integral (minutes, energy levels, counts, timestamps)
    are modelled in [Z]; quantities that may be fractional (hours, scores,
    multipliers, averaged energy) are modelled in [Q], a finite double
    being a rational.  Their arithmetic is exact, which agrees with the
    doubles on the magnitudes the planner handles, except where a review
    averages the energy: there every operation is rounded to the nearest
    double ([JS.toDouble]), as the rounding shows in the stored value.
    NaN and the infinities are outside the model. *)

From Stdlib Require Import ZArith QArith Qround Qabs Lia Lqa List.
From Stdlib Require Import Sorting.Permutation Sorting.Sorted.
From stdpp Require Import gmap strings.
Import ListNotations.

Local Open Scope Z_scope.

(** ** JavaScript primitives *)

Module JS.

(** [Math.round]: nearest integer, halves towards plus infinity. *)
Definition Math_round (x : Q) : Z := Qfloor (x + (1 # 2))%Q.

(** [Math.ceil]. *)
Definition Math_ceil (x : Q) : Z := Qceiling x.

(** [a < b] and [a <= b] on numbers. *)
Definition ltb (a b : Q) : bool := negb (Qle_bool b a).
Definition leb (a b : Q) : bool := Qle_bool a b.

(** [Math.max] and [Math.min] on two numbers. *)
Definition Math_max (a b : Q) : Q := if ltb a b then b else a.
Definition Math_min (a b : Q) : Q := if ltb b a then b else a.

(** Truthiness of a number: [0] is falsy. *)
Definition truthyZ (n : Z) : bool := negb (Z.eqb n 0).
Definition truthyQ (q : Q) : bool := negb (Qeq_bool q 0).

(** [x || alt] on numbers. *)
Definition orZ (n alt : Z) : Z := if truthyZ n then n else alt.
Definition orQ (q alt : Q) : Q := if truthyQ q then q else alt.

(** Double precision.  A finite double is a rational; [toDouble q] is the
    double nearest to [q] (IEEE 754 binary64, round to nearest, ties to
    even, subnormals included; overflow is outside the model).  An
    arithmetic operation on doubles is the exact operation followed by
    [toDouble]. *)
Definition pow2 (e : Z) : Q :=
  if 0 <=? e then inject_Z (2 ^ e) else 1 # Z.to_pos (2 ^ (- e)).

Definition roundHalfEven (x : Q) : Z :=
  let f := Qfloor x in
  let r := (x - inject_Z f)%Q in
  if ltb r (1 # 2) then f
  else if ltb (1 # 2) r then f + 1
  else if Z.even f then f else f + 1.

Definition toDouble (q : Q) : Q :=
  let q := Qred q in
  if Qeq_bool q 0 then 0%Q
  else
    let a := Qabs q in
    let e0 := Z.log2 (Qnum a) - Z.log2 (Zpos (Qden a)) - 52 in
    let e1 := if ltb (a / pow2 e0) (inject_Z (2 ^ 52)) then e0 - 1 else e0 in
    let e := Z.max e1 (-1074) in
    let m := roundHalfEven (a / pow2 e) in
    Qred ((if ltb q 0 then -1 else 1) * inject_Z m * pow2 e).

(** [a + b], [a * b] and [a / b] on doubles. *)
Definition fadd (a b : Q) : Q := toDouble (a + b).
Definition fmul (a b : Q) : Q := toDouble (a * b).
Definition fdiv (a b : Q) : Q := toDouble (a / b).

(** [Array.prototype.sort(cmp)] is a stable sort: elements are reordered
    so that [cmp a b <= 0] for neighbours, equal ones keeping their
    encounter order.  For a comparator that is a difference of keys the
    result is the one of a stable insertion sort. *)
Section Sort.
Context {A : Type} (cmp : A -> A -> Q).

Fixpoint insert (x : A) (l : list A) : list A :=
  match l with
  | [] => [x]
  | y :: l' => if leb (cmp x y) 0 then x :: y :: l' else y :: insert x l'
  end.

Definition sort (l : list A) : list A := fold_right insert [] l.
End Sort.

End JS.

(** ** Constants *)

(** [SLEEP_SCORES[sleep]]; [None] when the key is absent. *)
Definition SLEEP_SCORES (sleep : string) : option Z :=
  if String.eqb sleep "terrible" then Some 1
  else if String.eqb sleep "poor" then Some 3
  else if String.eqb sleep "ok" then Some 5
  else if String.eqb sleep "good" then Some 7
  else if String.eqb sleep "great" then Some 9
  else None.

(** [FREQ_DAYS[frequency]]; [None] when the key is absent. *)
Definition FREQ_DAYS (frequency : string) : option Q :=
  if String.eqb frequency "daily" then Some 1%Q
  else if String.eqb frequency "2x_daily" then Some (1 # 2)%Q
  else if String.eqb frequency "3x_weekly" then Some (233 # 100)%Q
  else if String.eqb frequency "weekly" then Some 7%Q
  else if String.eqb frequency "2x_weekly" then Some (7 # 2)%Q
  else if String.eqb frequency "biweekly" then Some 14%Q
  else if String.eqb frequency "monthly" then Some 30%Q
  else if String.eqb frequency "once" then Some 9999%Q
  else None.

Definition BASE_POINTS_MIN : Z := 1.
Definition FEEDBACK_POINTS : Z := 15.
Definition PERFECT_DAY_BONUS : Z := 200.

(** [LOW_ENERGY_SCALE[energy]]; [None] when the key is absent. *)
Definition LOW_ENERGY_SCALE (energy : Z) : option Q :=
  match energy with
  | 1 => Some 3%Q
  | 2 => Some (5 # 2)%Q
  | 3 => Some 2%Q
  | 4 => Some (3 # 2)%Q
  | _ => None
  end.

(** ** Data model *)

(** A variant [{name, duration_minutes, energy_required}]; the fields carry
    the prefix [v_] to keep them apart from the task's. *)
Record Variant := {
  v_name : string;
  v_duration_minutes : Z;
  v_energy_required : Z
}.

(** A date string [YYYY-MM-DD] is represented by the number of days since
    the epoch it denotes; [new Date(s)] is then [s * 86400000] ms. *)
Definition DateStr := Z.
Definition MS_PER_DAY : Z := 86400000.
Definition newDate (d : DateStr) : Z := d * MS_PER_DAY.

(** A task.  An absent array is the empty list, an absent flag is [false],
    an absent [deadline] is [None], an absent [frequency] is the empty
    string. *)
Record Task := {
  id : string;
  name : string;
  mandatory : bool;
  critical : bool;
  category : string;
  energy_required : Z;
  duration_minutes : Z;
  frequency : string;
  deadline : option DateStr;
  days_available : list string;
  variants : list Variant;
  subtasks : list string;
  blockers : list string
}.

Record MorningData := {
  sleep : string;
  hours : Q;
  energy : Z
}.

(** A learned record; [last_done] absent is [None], [completed_today]
    absent is [false]. *)
Record Learned := {
  count : Z;
  avg_duration : Z;
  avg_energy : Q;
  last_done : option DateStr;
  completed_today : bool
}.

(** The planner's [today]: a [Date] at local midnight, seen through
    [getTime] (ms) and [getDay] (0 = Sunday). *)
Record Today := {
  getTime : Z;
  getDay : nat
}.

(** ** Point economy *)

Definition getLowEnergyMultiplier (morningEnergy : Z) : Q :=
  match LOW_ENERGY_SCALE morningEnergy with
  | Some m => m
  | None => 1%Q
  end.

Record Points := {
  base : Z;
  pts : Z;
  lowEnergyBonus : bool;
  multiplier : Q
}.

Definition calcTaskPoints (task : Task) (morningEnergy : Z) : Points :=
  let base :=
    Z.max BASE_POINTS_MIN
      (JS.Math_round (inject_Z (energy_required task * duration_minutes task) / 10)%Q) in
  let multiplier := getLowEnergyMultiplier morningEnergy in
  let lowEnergyBonus := JS.ltb 1 multiplier in
  let pts :=
    if lowEnergyBonus then JS.Math_round (inject_Z base * multiplier)%Q else base in
  {| base := base; pts := pts; lowEnergyBonus := lowEnergyBonus; multiplier := multiplier |}.

(** ** Priority algorithm *)

(** The object returned by [scoreTask]: the task's own fields (the spread
    [...task]) and the computed ones.  The blocked shape carries no
    [urgency], [criticality], [energyFit] or [overduePts]: those are
    [None] there. *)
Record ScoredTask := {
  task : Task;
  score : Q;
  urgency : option Z;
  criticality : option Z;
  energyFit : option Q;
  overduePts : option Q;
  effectiveDuration : Z;
  effectiveEnergy : Q;
  blocked : bool
}.

Definition DAY_NAMES : list string :=
  ["sun"; "mon"; "tue"; "wed"; "thu"; "fri"; "sat"]%string.

(** [Array.prototype.includes] against a possibly undefined value. *)
Definition includes (l : list string) (x : option string) : bool :=
  match x with
  | Some s => existsb (String.eqb s) l
  | None => false
  end.

(** [task.days_available?.length && !task.days_available.includes(dayName)] *)
Definition notAvailableToday (t : Task) (today : Today) : bool :=
  let dayName := nth_error DAY_NAMES (getDay today) in
  match days_available t with
  | [] => false
  | _ :: _ => negb (includes (days_available t) dayName)
  end.

(** [learnedData[b]?.completed_today] *)
Definition completedToday (learnedData : gmap string Learned) (b : string) : bool :=
  match learnedData !! b with
  | Some l => completed_today l
  | None => false
  end.

(** [task.blockers?.length && task.blockers.some(b => !learnedData[b]?.completed_today)] *)
Definition isBlocked (t : Task) (learnedData : gmap string Learned) : bool :=
  existsb (fun b => negb (completedToday learnedData b)) (blockers t).

Definition urgencyOf (t : Task) (today : Today) : Z :=
  match deadline t with
  | None => 0
  | Some d =>
      let daysLeft := JS.Math_ceil (inject_Z (newDate d - getTime today) / inject_Z MS_PER_DAY)%Q in
      if daysLeft <=? 0 then 30
      else if daysLeft <=? 1 then 28
      else if daysLeft <=? 3 then 22
      else if daysLeft <=? 7 then 16
      else if daysLeft <=? 14 then 10
      else if daysLeft <=? 30 then 5
      else 1
  end%Z.

Definition overduePtsOf (t : Task) (learned : option Learned) (today : Today) : Q :=
  match learned with
  | Some l =>
      match last_done l, FREQ_DAYS (frequency t) with
      | Some ld, Some expected =>
          let daysSince := (inject_Z (getTime today - newDate ld) / inject_Z MS_PER_DAY)%Q in
          if JS.ltb expected daysSince
          then JS.Math_min 15 (((daysSince - expected) / expected) * 15)%Q
          else 0%Q
      | _, _ => 0%Q
      end
  | None => 0%Q
  end.

Definition scoreTask (t : Task) (morningData : MorningData)
    (learnedData : gmap string Learned) (today : Today) : option ScoredTask :=
  let sleepScore := default 5 (SLEEP_SCORES (sleep morningData)) in
  let learned := learnedData !! id t in
  let effectiveDuration :=
    match learned with
    | Some l => JS.orZ (avg_duration l) (duration_minutes t)
    | None => duration_minutes t
    end in
  let effectiveEnergy :=
    match learned with
    | Some l => JS.orQ (avg_energy l) (inject_Z (energy_required t))
    | None => inject_Z (energy_required t)
    end in
  let urgency := urgencyOf t today in
  let criticality := if mandatory t then 25 else if critical t then 15 else 0 in
  let sleepMultiplier := (1 + inject_Z (5 - sleepScore) * (1 # 10))%Q in
  let energyDiff := Qabs (inject_Z (energy morningData) - effectiveEnergy)%Q in
  let energyFit := (JS.Math_max 0 (20 - energyDiff * (5 # 2)) * sleepMultiplier)%Q in
  let overduePts := overduePtsOf t learned today in
  if notAvailableToday t today then None
  else if isBlocked t learnedData then
    Some {| task := t; score := 0; urgency := None; criticality := None;
            energyFit := None; overduePts := None;
            effectiveDuration := effectiveDuration;
            effectiveEnergy := effectiveEnergy; blocked := true |}
  else
    let score := (inject_Z urgency + inject_Z criticality + energyFit + overduePts)%Q in
    Some {| task := t; score := score; urgency := Some urgency;
            criticality := Some criticality; energyFit := Some energyFit;
            overduePts := Some overduePts;
            effectiveDuration := effectiveDuration;
            effectiveEnergy := effectiveEnergy; blocked := false |}.

(** ** Variant selection *)

Definition byDuration (a b : Variant) : Q :=
  inject_Z (v_duration_minutes a - v_duration_minutes b).

Definition fitsIn (timeRemaining : Q) (v : Variant) : bool :=
  JS.leb (inject_Z (v_duration_minutes v)) timeRemaining.

Definition energyGap (effEnergy : Q) (v : Variant) : Q :=
  Qabs (inject_Z (v_energy_required v) - effEnergy)%Q.

Definition pickVariant (t : Task) (energy : Z) (sleep : string)
    (timeRemaining : Q) (timePressure : bool) : option Variant :=
  match variants t with
  | [] => None
  | _ :: _ =>
      let sleepScore := default 5 (SLEEP_SCORES sleep) in
      let effEnergy := ((inject_Z energy + inject_Z sleepScore / 2) / (3 # 2))%Q in
      let sorted := JS.sort byDuration (variants t) in
      if timePressure then
        let fits := List.filter (fitsIn timeRemaining) sorted in
        match fits with
        | f :: _ => Some f
        | [] => head sorted
        end
      else
        let fitting := List.filter (fitsIn timeRemaining) sorted in
        match fitting with
        | [] => head sorted
        | f :: _ =>
            if JS.ltb effEnergy (7 # 2) then Some f
            else Some (fold_left
                         (fun best v =>
                            if JS.ltb (energyGap effEnergy v) (energyGap effEnergy best)
                            then v else best)
                         fitting f)
        end
  end.

(** ** Day plan *)

(** The text of an alert, with the values its template interpolates:
    - [TimeTight]: "Time is tight — switching critical tasks to their
      shorter variants to fit your day."
    - [Shortfall n r s]: "Critical tasks need [n]h even at shortest
      variants, but only [r]h remain. You're [s]min short — consider
      deferring a task."
    - [OverduePromoted]: "Overdue tasks auto-promoted."
    - [LowEnergy]: "Low energy detected — variants scaled down.
      Low-energy bonus x1.5 pts active today!" *)
Inductive Message :=
  | TimeTight
  | Shortfall (neededHours remainingHours : Q) (shortfallMinutes : Z)
  | OverduePromoted
  | LowEnergy.

Record Alert := {
  type : string;
  message : Message
}.

(** An entry of the plan: the scored task's fields (the spread) and the
    scheduling ones.  [pinned] is set on mandatory entries only and
    [compressed] on the others only; an absent flag is [false]. *)
Record PlanItem := {
  scored : ScoredTask;
  scheduledDuration : Z;
  displayName : string;
  variant : option Variant;
  pinned : bool;
  compressed : bool
}.

(** The result of [buildDayPlan]; [blockedTasks] is its field [blocked]. *)
Record DayPlan := {
  plan : list PlanItem;
  alerts : list Alert;
  minutesUsed : Z;
  availableMinutes : Q;
  blockedTasks : list Task
}.

(** [.filter(Boolean)] on an array of objects and nulls. *)
Fixpoint filterBoolean {A : Type} (l : list (option A)) : list A :=
  match l with
  | [] => []
  | Some x :: l' => x :: filterBoolean l'
  | None :: l' => filterBoolean l'
  end.

Definition byScoreDesc (a b : ScoredTask) : Q := (score b - score a)%Q.

Definition isSome {A : Type} (o : option A) : bool :=
  match o with Some _ => true | None => false end.

(** [variant ? variant.duration_minutes : task.effectiveDuration] *)
Definition durationOf (s : ScoredTask) (v : option Variant) : Z :=
  match v with
  | Some v => v_duration_minutes v
  | None => effectiveDuration s
  end.

(** [variant ? `${task.name} — ${variant.name}` : task.name] *)
Definition displayNameOf (s : ScoredTask) (v : option Variant) : string :=
  match v with
  | Some v => (name (task s) ++ " — " ++ v_name v)%string
  | None => name (task s)
  end.

Section Passes.
Variable morningData : MorningData.
Variable avail : Q.

(** The loop over the mandatory tier; the state is the plan built so far
    and [minutesUsed]. *)
Definition mandatoryStep (st : list PlanItem * Z) (s : ScoredTask) : list PlanItem * Z :=
  let '(plan, minutesUsed) := st in
  let variant :=
    pickVariant (task s) (energy morningData) (sleep morningData)
      (avail - inject_Z minutesUsed)%Q false in
  let duration := durationOf s variant in
  (plan ++ [ {| scored := s; scheduledDuration := duration;
                displayName := displayNameOf s variant; variant := variant;
                pinned := true; compressed := false |} ],
   minutesUsed + duration).

(** The loop over the critical tier. *)
Definition criticalStep (timePressure : bool) (st : list PlanItem * Z) (s : ScoredTask)
    : list PlanItem * Z :=
  let '(plan, minutesUsed) := st in
  let variant :=
    pickVariant (task s) (energy morningData) (sleep morningData)
      (avail - inject_Z minutesUsed)%Q timePressure in
  let duration := durationOf s variant in
  if JS.leb (inject_Z (minutesUsed + duration)) (avail + 15)%Q then
    (plan ++ [ {| scored := s; scheduledDuration := duration;
                  displayName := displayNameOf s variant; variant := variant;
                  pinned := false; compressed := timePressure && isSome variant |} ],
     minutesUsed + duration)
  else (plan, minutesUsed).

(** The loop over the normal tier, which stops at the first task met
    with the budget used up. *)
Fixpoint normalPass (l : list ScoredTask) (st : list PlanItem * Z) : list PlanItem * Z :=
  match l with
  | [] => st
  | s :: l' =>
      let '(plan, minutesUsed) := st in
      if JS.leb avail (inject_Z minutesUsed) then st
      else
        let normalPressure := JS.ltb (9 # 10) (inject_Z minutesUsed / avail)%Q in
        let variant :=
          pickVariant (task s) (energy morningData) (sleep morningData)
            (avail - inject_Z minutesUsed)%Q normalPressure in
        let duration := durationOf s variant in
        if JS.leb (inject_Z (minutesUsed + duration)) avail then
          normalPass l'
            (plan ++ [ {| scored := s; scheduledDuration := duration;
                          displayName := displayNameOf s variant; variant := variant;
                          pinned := false;
                          compressed := normalPressure && isSome variant |} ],
             minutesUsed + duration)
        else normalPass l' st
  end.
End Passes.

(** [critical.reduce((s,t) => s + t.effectiveDuration, 0)] *)
Definition critMinsNormalOf (critical : list ScoredTask) : Z :=
  fold_left (fun s t => s + effectiveDuration t) critical 0.

(** [Math.min(...t.variants.map(v => v.duration_minutes))] on a non-empty
    array. *)
Definition shortestOf (v : Variant) (vs : list Variant) : Z :=
  fold_left Z.min (map v_duration_minutes vs) (v_duration_minutes v).

Definition critMinsCompressedOf (critical : list ScoredTask) : Z :=
  fold_left
    (fun s t =>
       match variants (task t) with
       | [] => s + effectiveDuration t
       | v :: vs => s + Z.min (effectiveDuration t) (shortestOf v vs)
       end)
    critical 0.

(** The alert of the critical tier's time-pressure check. *)
Definition pressureAlerts (remainingForCritical : Q) (critMinsNormal critMinsCompressed : Z)
    : list Alert :=
  let timePressure := JS.ltb remainingForCritical (inject_Z critMinsNormal) in
  let canFitCompressed := JS.leb (inject_Z critMinsCompressed) remainingForCritical in
  if timePressure then
    if canFitCompressed then [ {| type := "warning"; message := TimeTight |} ]
    else
      let shortfall := JS.Math_round (inject_Z critMinsCompressed - remainingForCritical)%Q in
      [ {| type := "error";
           message :=
             Shortfall
               (inject_Z (JS.Math_round (inject_Z critMinsCompressed / 60 * 10)) / 10)%Q
               (inject_Z (JS.Math_round (remainingForCritical / 60 * 10)) / 10)%Q
               shortfall |} ]
  else [].

Definition overdueOver10 (s : ScoredTask) : bool :=
  match overduePts s with
  | Some p => JS.ltb 10 p
  | None => false
  end.

(** [buildDayPlan], with the [today] it reads from the clock passed in. *)
Definition buildDayPlan (tasks : list Task) (morningData : MorningData)
    (learnedData : gmap string Learned) (today : Today) : DayPlan :=
  let availableMinutes := (hours morningData * 60)%Q in
  let scored :=
    List.filter (fun t => negb (blocked t))
      (filterBoolean (map (fun t => scoreTask t morningData learnedData today) tasks)) in
  let mandatoryT :=
    JS.sort byScoreDesc (List.filter (fun t => mandatory (task t)) scored) in
  let criticalT :=
    JS.sort byScoreDesc
      (List.filter (fun t => negb (mandatory (task t)) && critical (task t)) scored) in
  let normalT :=
    JS.sort byScoreDesc
      (List.filter (fun t => negb (mandatory (task t)) && negb (critical (task t))) scored) in
  let blockedL :=
    List.filter
      (fun t => match scoreTask t morningData learnedData today with
                | Some s => blocked s
                | None => false
                end) tasks in
  let st0 := fold_left (mandatoryStep morningData availableMinutes) mandatoryT ([], 0) in
  let remainingForCritical := (availableMinutes - inject_Z (snd st0))%Q in
  let critMinsNormal := critMinsNormalOf criticalT in
  let critMinsCompressed := critMinsCompressedOf criticalT in
  let timePressure := JS.ltb remainingForCritical (inject_Z critMinsNormal) in
  let alerts1 := pressureAlerts remainingForCritical critMinsNormal critMinsCompressed in
  let st1 := fold_left (criticalStep morningData availableMinutes timePressure) criticalT st0 in
  let st2 := normalPass morningData availableMinutes normalT st1 in
  let alerts2 :=
    if negb (Nat.eqb (length (List.filter overdueOver10 scored)) 0)
    then alerts1 ++ [ {| type := "warning"; message := OverduePromoted |} ]
    else alerts1 in
  let alerts3 :=
    if (energy morningData <=? 3) || String.eqb (sleep morningData) "terrible"
    then alerts2 ++ [ {| type := "info"; message := LowEnergy |} ]
    else alerts2 in
  {| plan := fst st2; alerts := alerts3; minutesUsed := snd st2;
     availableMinutes := availableMinutes; blockedTasks := blockedL |}.

(** ** Learning from reviews *)

(** [x || null] on the result of [parseInt] / [parseFloat]: [None] stands
    for [NaN] (nothing entered, or no number read) and for [null]. *)
Definition orNullZ (x : option Z) : option Z :=
  match x with
  | Some n => if JS.truthyZ n then Some n else None
  | None => None
  end.

Definition orNullQ (x : option Q) : option Q :=
  match x with
  | Some q => if JS.truthyQ q then Some q else None
  | None => None
  end.

(** The record [{ count: 0, avg_duration: 0, avg_energy: 0 }]. *)
Definition freshLearned : Learned :=
  {| count := 0; avg_duration := 0; avg_energy := 0;
     last_done := None; completed_today := false |}.

(** The record written for one completed task: the body of the loop of
    [submitReview].  [parsedMin] is what [parseInt] reads from the entered
    text and [parsedEng] the number the entered energy denotes, of which
    [parseFloat] returns the nearest double; [todayStr] is the current
    date string.  The energy average is computed on doubles, operation by
    operation; the stored average, a double, is read through [toDouble],
    which leaves a double as it is. *)
Definition reviewedRecord (prev : Learned) (parsedMin : option Z) (parsedEng : option Q)
    (todayStr : DateStr) : Learned :=
  let actualMin := orNullZ parsedMin in
  let actualEng := orNullQ (option_map JS.toDouble parsedEng) in
  let count' := count prev + 1 in
  {| count := count';
     last_done := Some todayStr;
     completed_today := true;
     avg_duration :=
       match actualMin with
       | Some a =>
           JS.Math_round
             (inject_Z (avg_duration prev * (count' - 1) + a) / inject_Z count')%Q
       | None => avg_duration prev
       end;
     avg_energy :=
       match actualEng with
       | Some a =>
           JS.fdiv
             (inject_Z
                (JS.Math_round
                   (JS.fmul
                      (JS.fdiv
                         (JS.fadd
                            (JS.fmul (JS.orQ (JS.toDouble (avg_energy prev)) 0)
                               (inject_Z (count' - 1)))
                            a)
                         (inject_Z count'))
                      10)))
             10
       | None => avg_energy prev
       end |}.

Definition applyReview (newLearned : gmap string Learned) (taskId : string)
    (parsedMin : option Z) (parsedEng : option Q) (todayStr : DateStr)
    : gmap string Learned :=
  let prev := default freshLearned (newLearned !! taskId) in
  <[ taskId := reviewedRecord prev parsedMin parsedEng todayStr ]> newLearned.

(** [submitReview] as a function of the learned store: [completed] are the
    keys of [completedTasks], [actualTimes] and [actualEnergy] hold what
    was parsed from the entered texts.  The points awarded for feedback
    and the saving of the store are effects outside this model. *)
Definition submitReview (learnedData : gmap string Learned) (completed : list string)
    (actualTimes : gmap string Z) (actualEnergy : gmap string Q) (todayStr : DateStr)
    : gmap string Learned :=
  fold_left
    (fun newLearned taskId =>
       applyReview newLearned taskId (actualTimes !! taskId) (actualEnergy !! taskId) todayStr)
    completed learnedData.

(** ** Quantities the properties are stated with *)

(** The sum of [scheduledDuration] over a plan. *)
Definition totalScheduled (p : list PlanItem) : Z :=
  fold_right (fun i acc => scheduledDuration i + acc) 0 p.

(** The sum of [effectiveDuration] over a tier. *)
Definition totalEffective (l : list ScoredTask) : Z :=
  fold_right (fun s acc => effectiveDuration s + acc) 0 l.

(** What a pass adds to the state [(p, u)]: the entries [extra], all
    built from tasks of the tier [l] and all satisfying [P]. *)
Definition extends (P : PlanItem -> Prop) (l : list ScoredTask)
    (st st' : list PlanItem * Z) (extra : list PlanItem) : Prop :=
  fst st' = fst st ++ extra
  /\ snd st' = snd st + totalScheduled extra
  /\ Forall (fun i => P i /\ In (scored i) l) extra.

(** The array [scored] of [buildDayPlan]. *)
Definition scoredToday (tasks : list Task) (morningData : MorningData)
    (learnedData : gmap string Learned) (today : Today) : list ScoredTask :=
  List.filter (fun t => negb (blocked t))
    (filterBoolean (map (fun t => scoreTask t morningData learnedData today) tasks)).

Definition isMandatory (s : ScoredTask) : bool := mandatory (task s).
Definition isCritical (s : ScoredTask) : bool :=
  negb (mandatory (task s)) && critical (task s).
Definition isNormal (s : ScoredTask) : bool :=
  negb (mandatory (task s)) && negb (critical (task s)).

(** A tier of [buildDayPlan]: the scored tasks of one kind, best first. *)
Definition tier (kind : ScoredTask -> bool) (scoredL : list ScoredTask) : list ScoredTask :=
  JS.sort byScoreDesc (List.filter kind scoredL).

(** [minutesUsed] when the mandatory loop ends. *)
Definition mandatoryMinutes (tasks : list Task) (morningData : MorningData)
    (learnedData : gmap string Learned) (today : Today) : Z :=
  snd (fold_left (mandatoryStep morningData (hours morningData * 60)%Q)
         (tier isMandatory (scoredToday tasks morningData learnedData today)) ([], 0)).

Definition overdueAlert : Alert := {| type := "warning"; message := OverduePromoted |}.
Definition lowEnergyAlert : Alert := {| type := "info"; message := LowEnergy |}.

(** An alert of the time-pressure check, by its text. *)
Definition isPressureAlert (a : Alert) : bool :=
  match message a with
  | TimeTight | Shortfall _ _ _ => true
  | _ => false
  end.

(** The duration of a critical task when compressed: the smaller of its
    effective duration and its shortest variant's duration. *)
Definition compressedDuration (s : ScoredTask) : Z :=
  match variants (task s) with
  | [] => effectiveDuration s
  | v :: vs => Z.min (effectiveDuration s) (shortestOf v vs)
  end.

Definition totalCompressed (l : list ScoredTask) : Z :=
  fold_right (fun s acc => compressedDuration s + acc) 0 l.

(** ** Sample tasks, days and learned stores *)

Definition trivialTask : Task :=
  {| id := "t"; name := "t"; mandatory := false; critical := false; category := "";
     energy_required := 1; duration_minutes := 1; frequency := ""; deadline := None;
     days_available := []; variants := []; subtasks := []; blockers := [] |}.

Definition halfHourTask : Task :=
  {| id := "u"; name := "u"; mandatory := false; critical := false; category := "";
     energy_required := 5; duration_minutes := 30; frequency := ""; deadline := None;
     days_available := []; variants := []; subtasks := []; blockers := [] |}.

Definition breakfast : Task :=
  {| id := "breakfast"; name := "Breakfast"; mandatory := true; critical := false;
     category := "health"; energy_required := 2; duration_minutes := 20;
     frequency := "daily"; deadline := None;
     days_available := ["mon"; "tue"; "wed"; "thu"; "fri"; "sat"; "sun"]%string;
     variants :=
       [ {| v_name := "Full cooked breakfast"; v_duration_minutes := 35; v_energy_required := 3 |};
         {| v_name := "Cereal or yogurt"; v_duration_minutes := 5; v_energy_required := 1 |};
         {| v_name := "Toast & eggs"; v_duration_minutes := 15; v_energy_required := 2 |} ];
     subtasks := []; blockers := [] |}.

(** A mandatory two-hour task and a one-hour day. *)
Definition longMandatory : Task :=
  {| id := "dinner"; name := "Dinner"; mandatory := true; critical := false;
     category := "health"; energy_required := 3; duration_minutes := 120;
     frequency := "daily"; deadline := None; days_available := []; variants := [];
     subtasks := []; blockers := [] |}.

Definition shortDay : MorningData := {| sleep := "ok"; hours := 1; energy := 6 |}.

Definition aMonday : Today := {| getTime := 0; getDay := 1 |}.

Definition noTimeDay : MorningData := {| sleep := "ok"; hours := 0; energy := 6 |}.

(** A weekly review offered on Friday and Saturday only. *)
Definition weeklyReview : Task :=
  {| id := "weekly-review"; name := "Weekly review"; mandatory := false; critical := false;
     category := "admin"; energy_required := 5; duration_minutes := 45;
     frequency := "weekly"; deadline := None; days_available := ["fri"; "sat"]%string;
     variants := []; subtasks := []; blockers := [] |}.

(** A daily task last done ten days ago. *)
Definition emailTriage : Task :=
  {| id := "email-triage"; name := "Email triage & responses"; mandatory := false;
     critical := false; category := "work"; energy_required := 4; duration_minutes := 30;
     frequency := "daily"; deadline := None; days_available := []; variants := [];
     subtasks := []; blockers := [] |}.

Definition emailLearned : gmap string Learned :=
  {[ "email-triage"%string :=
       {| count := 1; avg_duration := 30; avg_energy := 4;
          last_done := Some 0; completed_today := true |} ]}.

Definition tenDaysLater : Today := {| getTime := 10 * MS_PER_DAY; getDay := 4 |}.

(** Two critical tasks: 120 and 80 minutes nominal, 60 and 60 at their
    shortest variants; a day of two hours and a half. *)
Definition reportTask : Task :=
  {| id := "q1-report"; name := "Q1 Report"; mandatory := false; critical := true;
     category := "work"; energy_required := 7; duration_minutes := 120;
     frequency := "once"; deadline := None; days_available := [];
     variants :=
       [ {| v_name := "Draft"; v_duration_minutes := 90; v_energy_required := 6 |};
         {| v_name := "Outline"; v_duration_minutes := 60; v_energy_required := 4 |} ];
     subtasks := []; blockers := [] |}.

Definition exerciseTask : Task :=
  {| id := "exercise"; name := "Exercise"; mandatory := false; critical := true;
     category := "health"; energy_required := 7; duration_minutes := 80;
     frequency := "3x_weekly"; deadline := None; days_available := [];
     variants :=
       [ {| v_name := "Full workout"; v_duration_minutes := 60; v_energy_required := 9 |} ];
     subtasks := []; blockers := [] |}.

Definition tightDay : MorningData := {| sleep := "ok"; hours := 5 # 2; energy := 6 |}.

(** ** Further quantities *)

(** The blended energy [(energy + sleepScore / 2) / 1.5] of [pickVariant]. *)
Definition blendedEnergy (energy : Z) (sleep : string) : Q :=
  ((inject_Z energy + inject_Z (default 5%Z (SLEEP_SCORES sleep)) / 2) / (3 # 2))%Q.

(** An entry as the loops of [buildDayPlan] build it: its variant is what
    [pickVariant] chose for its task, its duration and display name follow
    from that choice, and it is marked compressed only when it is not
    pinned and carries a variant. *)
Definition wellFormedEntry (morningData : MorningData) (i : PlanItem) : Prop :=
  (exists timeRemaining timePressure,
      variant i = pickVariant (task (scored i)) (energy morningData) (sleep morningData)
                    timeRemaining timePressure)
  /\ scheduledDuration i = durationOf (scored i) (variant i)
  /\ displayName i = displayNameOf (scored i) (variant i)
  /\ (compressed i = true -> pinned i = false /\ variant i <> None).

(** What a pass adds, with the order of the tier: the tasks of the added
    entries form a subsequence of the tier [l]. *)
Definition admits (P : PlanItem -> Prop) (l : list ScoredTask)
    (st st' : list PlanItem * Z) (extra : list PlanItem) : Prop :=
  fst st' = fst st ++ extra
  /\ sublist (map scored extra) l
  /\ Forall P extra.

(** Scores do not increase along the list. *)
Definition scoresDescend (l : list ScoredTask) : Prop :=
  StronglySorted (fun a b => (score b <= score a)%Q) l.

(** ** The points bank *)

(** An entry [{pts, reason, date, ts}] of the points log. *)
Record LogEntry := {
  log_pts : Z;
  log_reason : string;
  log_date : string;
  log_ts : Z
}.

(** A reward [{id, name, cost, emoji, category}]. *)
Record Reward := {
  r_id : string;
  r_name : string;
  cost : Z;
  emoji : string;
  r_category : string
}.

(** The state [awardPoints] and [redeemReward] read and set. *)
Record Ledger := {
  pointsBank : Z;
  pointsLog : list LogEntry
}.

(** [awardPoints]: [date] and [ts] are the clock readings of the call.
    The toast, the animation and the saving are effects outside this
    model. *)
Definition awardPoints (st : Ledger) (pts : Z) (reason date : string) (ts : Z) : Ledger :=
  let newBank := pointsBank st + pts in
  let entry := {| log_pts := pts; log_reason := reason; log_date := date; log_ts := ts |} in
  let newLog := firstn 200 (entry :: pointsLog st) in
  {| pointsBank := newBank; pointsLog := newLog |}.

(** [redeemReward]; with too few points nothing is set. *)
Definition redeemReward (st : Ledger) (reward : Reward) (date : string) (ts : Z) : Ledger :=
  if pointsBank st <? cost reward then st
  else
    let newBank := pointsBank st - cost reward in
    let entry := {| log_pts := - cost reward;
                    log_reason := ("Redeemed: " ++ r_name reward)%string;
                    log_date := date; log_ts := ts |} in
    let newLog := firstn 200 (entry :: pointsLog st) in
    {| pointsBank := newBank; pointsLog := newLog |}.

(** The sum of the points of a log. *)
Definition logTotal (l : list LogEntry) : Z :=
  fold_right (fun e acc => log_pts e + acc) 0 l.

(** ** Adding and editing tasks *)

(** An item of the parse preview: the parsed task with its [_approved]
    flag and its [confidence_notes]. *)
Record PreviewItem := {
  parsed : Task;
  _approved : bool;
  confidence_notes : string
}.

(** [confirmAddTask], as the task list it saves; with an empty preview it
    saves nothing and the list stays. *)
Definition confirmAddTask (tasks : list Task) (parsedPreview : list PreviewItem)
    : list Task :=
  match parsedPreview with
  | [] => tasks
  | _ :: _ =>
      let toAdd := List.filter _approved parsedPreview in
      let clean := map parsed toAdd in
      let existing :=
        List.filter
          (fun ex => negb (existsb (fun n => String.eqb (id n) (id ex)) clean)) tasks in
      existing ++ clean
  end.

(** [togglePreviewItem] *)
Definition togglePreviewItem (idx : nat) (prev : list PreviewItem) : list PreviewItem :=
  imap (fun i t =>
          if Nat.eqb i idx
          then {| parsed := parsed t; _approved := negb (_approved t);
                  confidence_notes := confidence_notes t |}
          else t) prev.

(** [toggleDay] of the task editor, as the new [days_available]. *)
Definition toggleDay (cur : list string) (d : string) : list string :=
  if existsb (String.eqb d) cur
  then List.filter (fun x => negb (String.eqb x d)) cur
  else cur ++ [d].

(** [set("days_available", v)] of the task editor. *)
Definition setDaysAvailable (t : Task) (v : list string) : Task :=
  {| id := id t; name := name t; mandatory := mandatory t; critical := critical t;
     category := category t; energy_required := energy_required t;
     duration_minutes := duration_minutes t; frequency := frequency t;
     deadline := deadline t; days_available := v; variants := variants t;
     subtasks := subtasks t; blockers := blockers t |}.

(** The editor's [onSave] and [onDelete], as the task lists they save. *)
Definition saveTask (tasks : list Task) (updated : Task) : list Task :=
  map (fun t => if String.eqb (id t) (id updated) then updated else t) tasks.

Definition deleteTask (tasks : list Task) (editingTask : Task) : list Task :=
  List.filter (fun t => negb (String.eqb (id t) (id editingTask))) tasks.

(** ** Further samples *)

(** A task due on day 20000 of the epoch, and the local midnight of that
    day eight hours east of UTC. *)
Definition dueTask : Task :=
  {| id := "tax-return"; name := "Tax return"; mandatory := false; critical := true;
     category := "finance"; energy_required := 6; duration_minutes := 60;
     frequency := "once"; deadline := Some 20000; days_available := []; variants := [];
     subtasks := []; blockers := [] |}.

Definition eastOfUtcMidnight : Today :=
  {| getTime := 20000 * MS_PER_DAY - 8 * 3600000; getDay := 1 |}.

Definition workDay : MorningData := {| sleep := "good"; hours := 8; energy := 6 |}.

Definition followUp : Task :=
  {| id := "send-report"; name := "Send the report"; mandatory := false; critical := true;
     category := "work"; energy_required := 3; duration_minutes := 10;
     frequency := "once"; deadline := None; days_available := []; variants := [];
     subtasks := []; blockers := ["q1-report"]%string |}.

Definition gamingReward : Reward :=
  {| r_id := "r1"; r_name := "30 min guilt-free gaming"; cost := 150;
     emoji := "G"; r_category := "leisure" |}.

(** ** Word count *)

(** A JavaScript string is a sequence of UTF-16 code units.  [isWhiteSpace]
    is the set that the pattern [\s] and [String.prototype.trim] share:
    TAB, LF, VT, FF, CR, SP, U+00A0, U+1680, U+2000 to U+200A, U+2028,
    U+2029, U+202F, U+205F, U+3000 and U+FEFF. *)
Definition isWhiteSpace (c : N) : bool :=
  ((9 <=? c) && (c <=? 13) || (c =? 32) || (c =? 160) || (c =? 5760)
   || (8192 <=? c) && (c <=? 8202) || (c =? 8232) || (c =? 8233) || (c =? 8239)
   || (c =? 8287) || (c =? 12288) || (c =? 65279))%N.

Fixpoint trimStart (s : list N) : list N :=
  match s with
  | [] => []
  | c :: s' => if isWhiteSpace c then trimStart s' else s
  end.

(** [String.prototype.trim] *)
Definition trim (s : list N) : list N := rev (trimStart (rev (trimStart s))).

(** [s.split(/\s+/)]: the pieces between the maximal runs of white space;
    [cur] is the piece being read, reversed, and [inSpace] tells whether
    the last code unit read was white space. *)
Fixpoint splitSpaces (s : list N) (cur : list N) (inSpace : bool) : list (list N) :=
  match s with
  | [] => [rev cur]
  | c :: s' =>
      if isWhiteSpace c then
        if inSpace then splitSpaces s' [] true
        else rev cur :: splitSpaces s' [] true
      else splitSpaces s' (c :: cur) false
  end.

Definition isNonEmpty (s : list N) : bool :=
  match s with [] => false | _ :: _ => true end.

(** [wordCount]; a [null] or [undefined] text is [None]. *)
Definition wordCount (text : option (list N)) : nat :=
  length (List.filter isNonEmpty (splitSpaces (trim (default [] text)) [] false)).

(** The number of maximal runs of code units that are not white space;
    [inWord] tells whether the code unit before [s] belongs to a run. *)
Fixpoint wordRuns (s : list N) (inWord : bool) : nat :=
  match s with
  | [] => 0
  | c :: s' =>
      if isWhiteSpace c then wordRuns s' false
      else ((if inWord then 0 else 1) + wordRuns s' true)%nat
  end.

(** * Properties *)

(** ** Arithmetic of the primitives *)

Section Primitives.

Lemma ltb_lt a b : JS.ltb a b = true <-> (a < b)%Q.
Proof.
  unfold JS.ltb. rewrite negb_true_iff, <- not_true_iff_false, Qle_bool_iff.
  split; [apply Qnot_le_lt | apply Qlt_not_le].
Qed.

Lemma ltb_ge a b : JS.ltb a b = false <-> (b <= a)%Q.
Proof.
  unfold JS.ltb. rewrite negb_false_iff. apply Qle_bool_iff.
Qed.

Lemma leb_le a b : JS.leb a b = true <-> (a <= b)%Q.
Proof. apply Qle_bool_iff. Qed.

Lemma leb_gt a b : JS.leb a b = false <-> (b < a)%Q.
Proof.
  unfold JS.leb. rewrite <- not_true_iff_false, Qle_bool_iff.
  split; [apply Qnot_le_lt | apply Qlt_not_le].
Qed.

Lemma Math_round_mono x y : (x <= y)%Q -> JS.Math_round x <= JS.Math_round y.
Proof.
  intros Hxy. unfold JS.Math_round. apply Qfloor_resp_le. lra.
Qed.

Lemma Math_round_ge_1 x : (1 <= x)%Q -> 1 <= JS.Math_round x.
Proof.
  intros Hx. change 1 with (JS.Math_round 1) at 1. now apply Math_round_mono.
Qed.

Lemma getLowEnergyMultiplier_ge_1 e : (1 <= getLowEnergyMultiplier e)%Q.
Proof.
  unfold getLowEnergyMultiplier, LOW_ENERGY_SCALE.
  destruct e as [|p|p]; try apply Qle_refl.
  do 3 (destruct p; try apply Qle_refl; try (vm_compute; discriminate)).
Qed.

Lemma calcTaskPoints_base_ge_1 t e : 1 <= base (calcTaskPoints t e).
Proof. simpl. unfold BASE_POINTS_MIN. lia. Qed.

End Primitives.

(** ** Points *)

Section PointsFacts.

Lemma LOW_ENERGY_SCALE_high e : 5 <= e -> LOW_ENERGY_SCALE e = None.
Proof.
  intros He. destruct e as [|p|p]; try lia.
  do 3 (destruct p; try reflexivity; try lia).
Qed.

Lemma pts_unfold t e :
  pts (calcTaskPoints t e) =
    if JS.ltb 1 (multiplier (calcTaskPoints t e))
    then JS.Math_round (inject_Z (base (calcTaskPoints t e)) * multiplier (calcTaskPoints t e))
    else base (calcTaskPoints t e).
Proof. reflexivity. Qed.

Lemma base_mono t1 t2 e :
  energy_required t1 * duration_minutes t1 <= energy_required t2 * duration_minutes t2 ->
  base (calcTaskPoints t1 e) <= base (calcTaskPoints t2 e).
Proof.
  intros Hle. simpl. apply Z.max_le_compat_l, Math_round_mono.
  rewrite Zle_Qle in Hle. unfold Qdiv.
  apply Qmult_le_compat_r; [exact Hle | discriminate].
Qed.

End PointsFacts.

(** C3: for a task with [energy_required >= 1] and [duration_minutes >= 1]
    and any morning energy, [calcTaskPoints] returns
    [base = max(1, round(energy_required * duration_minutes / 10))], the
    multiplier 3.0, 2.5, 2.0, 1.5 for morning energy 1, 2, 3, 4 and 1.0 for
    energy 5 and above, [pts = round(base * multiplier)] when the
    multiplier exceeds 1.0 and [pts = base] otherwise; the points are at
    least 1. *)
Theorem calcTaskPoints_spec (t : Task) (morningEnergy : Z) :
  1 <= energy_required t -> 1 <= duration_minutes t ->
  let r := calcTaskPoints t morningEnergy in
  base r = Z.max 1 (JS.Math_round (inject_Z (energy_required t * duration_minutes t) / 10))
  /\ (morningEnergy = 1 -> multiplier r = 3%Q)
  /\ (morningEnergy = 2 -> multiplier r = (5 # 2)%Q)
  /\ (morningEnergy = 3 -> multiplier r = 2%Q)
  /\ (morningEnergy = 4 -> multiplier r = (3 # 2)%Q)
  /\ (5 <= morningEnergy -> multiplier r = 1%Q)
  /\ ((1 < multiplier r)%Q -> pts r = JS.Math_round (inject_Z (base r) * multiplier r))
  /\ (~ (1 < multiplier r)%Q -> pts r = base r)
  /\ 1 <= pts r.
Proof.
  intros _ _ r. subst r.
  split; [reflexivity |].
  split; [intros ->; reflexivity |].
  split; [intros ->; reflexivity |].
  split; [intros ->; reflexivity |].
  split; [intros ->; reflexivity |].
  split.
  { intros He. simpl. unfold getLowEnergyMultiplier.
    now rewrite (LOW_ENERGY_SCALE_high _ He). }
  rewrite pts_unfold.
  pose proof (calcTaskPoints_base_ge_1 t morningEnergy) as Hbase.
  assert (Hmul : (1 <= multiplier (calcTaskPoints t morningEnergy))%Q)
    by apply getLowEnergyMultiplier_ge_1.
  destruct (JS.ltb 1 (multiplier (calcTaskPoints t morningEnergy))) eqn:Hb.
  - split; [reflexivity |]. split.
    + intros Hn. apply ltb_lt in Hb. contradiction.
    + apply Math_round_ge_1. rewrite Zle_Qle in Hbase.
      set (b := inject_Z (base (calcTaskPoints t morningEnergy))) in *.
      set (m := multiplier (calcTaskPoints t morningEnergy)) in *.
      change (inject_Z 1) with 1%Q in Hbase. nra.
  - split.
    + intros Hlt. apply ltb_lt in Hlt. congruence.
    + split; [reflexivity | exact Hbase].
Qed.

Lemma calcTaskPoints_spec_witness :
  1 <= energy_required trivialTask /\ 1 <= duration_minutes trivialTask /\
  pts (calcTaskPoints trivialTask 1) = 3.
Proof.
  split; [simpl; lia |]. split; [simpl; lia |].
  destruct (calcTaskPoints_spec trivialTask 1) as (_ & _ & _ & _ & _ & _ & Hp & _ & _).
  - simpl; lia.
  - simpl; lia.
  - rewrite Hp; reflexivity.
Defined.

(** C9: for a fixed morning energy the points do not decrease when the
    product [energy_required * duration_minutes] grows. *)
Theorem calcTaskPoints_monotone (t1 t2 : Task) (e : Z) :
  energy_required t1 * duration_minutes t1 <= energy_required t2 * duration_minutes t2 ->
  pts (calcTaskPoints t1 e) <= pts (calcTaskPoints t2 e).
Proof.
  intros Hle. pose proof (base_mono t1 t2 e Hle) as Hbase.
  rewrite !pts_unfold.
  change (multiplier (calcTaskPoints t1 e)) with (getLowEnergyMultiplier e).
  change (multiplier (calcTaskPoints t2 e)) with (getLowEnergyMultiplier e).
  destruct (JS.ltb 1 (getLowEnergyMultiplier e)); [| exact Hbase].
  apply Math_round_mono. rewrite Zle_Qle in Hbase.
  apply Qmult_le_compat_r; [exact Hbase |].
  pose proof (getLowEnergyMultiplier_ge_1 e). lra.
Qed.

Lemma calcTaskPoints_monotone_witness :
  pts (calcTaskPoints trivialTask 2) <= pts (calcTaskPoints halfHourTask 2).
Proof.
  apply (calcTaskPoints_monotone trivialTask halfHourTask 2). simpl. lia.
Defined.

(** The low-energy scenario: morning energy 2, a task of energy 5 and 30
    minutes. *)
Example calcTaskPoints_low_energy_day :
  calcTaskPoints halfHourTask 2
  = {| base := 15; pts := 38; lowEnergyBonus := true; multiplier := 5 # 2 |}.
Proof. reflexivity. Qed.

Example calcTaskPoints_tiny_task :
  calcTaskPoints trivialTask 6
  = {| base := 1; pts := 1; lowEnergyBonus := false; multiplier := 1 |}.
Proof. reflexivity. Qed.

(** ** Sorting *)

Section SortFacts.
Context {A : Type} (cmp : A -> A -> Q).

Lemma insert_perm x l : Permutation (JS.insert cmp x l) (x :: l).
Proof.
  induction l as [|y l IH]; simpl.
  - reflexivity.
  - destruct (JS.leb (cmp x y) 0).
    + reflexivity.
    + rewrite IH. apply perm_swap.
Qed.

Lemma sort_perm l : Permutation (JS.sort cmp l) l.
Proof.
  induction l as [|x l IH]; simpl.
  - reflexivity.
  - rewrite insert_perm. now constructor.
Qed.

Lemma In_sort x l : In x (JS.sort cmp l) <-> In x l.
Proof.
  split; apply Permutation_in; [| symmetry]; apply sort_perm.
Qed.

Lemma sort_nonempty x l : JS.sort cmp (x :: l) <> [].
Proof.
  intros Hnil. pose proof (sort_perm (x :: l)) as Hp. rewrite Hnil in Hp.
  now apply Permutation_nil in Hp.
Qed.

(** The first element of the sorted array is below every element, for a
    comparator that is the difference of an integer key. *)
Variable key : A -> Z.
Hypothesis cmp_key : forall a b, cmp a b = inject_Z (key a - key b).

Lemma sort_head_least l v rest :
  JS.sort cmp l = v :: rest -> forall w, In w l -> key v <= key w.
Proof.
  revert v rest. induction l as [|x l IH]; intros v rest Hs w Hw.
  - destruct Hw.
  - simpl in Hs. destruct (JS.sort cmp l) as [|y r] eqn:Hsl.
    + destruct l as [|z l']; [| now apply sort_nonempty in Hsl].
      simpl in Hs. injection Hs as <- _. destruct Hw as [<- | []]. lia.
    + simpl in Hs. specialize (IH y r eq_refl).
      destruct (JS.leb (cmp x y) 0) eqn:Hc.
      * injection Hs as <- _. apply leb_le in Hc. rewrite cmp_key in Hc.
        change 0%Q with (inject_Z 0) in Hc. rewrite <- Zle_Qle in Hc.
        destruct Hw as [<- | Hw]; [lia |]. specialize (IH w Hw). lia.
      * injection Hs as <- _. apply leb_gt in Hc. rewrite cmp_key in Hc.
        change 0%Q with (inject_Z 0) in Hc. rewrite <- Zlt_Qlt in Hc.
        destruct Hw as [<- | Hw]; [lia |]. now apply IH.
Qed.
End SortFacts.

(** ** Variant selection under time pressure *)

Section PickVariantFacts.

Lemma filter_fits_none tr (l : list Variant) :
  (forall w, In w l -> fitsIn tr w = false) -> List.filter (fitsIn tr) l = [].
Proof.
  intros Hall. induction l as [|x l IH]; simpl; [reflexivity |].
  rewrite (Hall x (or_introl eq_refl)). apply IH. intros w Hw. apply Hall. now right.
Qed.

Lemma fitsIn_false tr v : fitsIn tr v = false <-> (tr < inject_Z (v_duration_minutes v))%Q.
Proof. apply leb_gt. Qed.

(** Under pressure the answer is the head of the sorted variants. *)
Lemma pickVariant_pressure_head t e s tr :
  variants t <> [] ->
  pickVariant t e s tr true = head (JS.sort byDuration (variants t)).
Proof.
  intros Hne. unfold pickVariant.
  destruct (variants t) as [|v0 vs] eqn:Hv; [congruence |].
  destruct (JS.sort byDuration (v0 :: vs)) as [|v rest] eqn:Hs.
  { now apply sort_nonempty in Hs. }
  cbn [List.filter head].
  destruct (fitsIn tr v) eqn:Hfit; [reflexivity |].
  rewrite filter_fits_none; [reflexivity |].
  intros w Hw. apply fitsIn_false. apply fitsIn_false in Hfit.
  assert (Hin : In w (v0 :: vs)).
  { apply (In_sort byDuration). rewrite Hs. now right. }
  pose proof (sort_head_least byDuration v_duration_minutes
                (fun a b => eq_refl) _ _ _ Hs w Hin) as Hle.
  rewrite Zle_Qle in Hle. lra.
Qed.

End PickVariantFacts.

(** C5: for a task with at least one variant, [pickVariant] under time
    pressure returns a variant of the task; when some variant fits
    [timeRemaining] the one returned fits and is the shortest of those that
    fit; when none fits the one returned is the shortest of all. *)
Theorem pickVariant_pressure_shortest (t : Task) (e : Z) (s : string) (timeRemaining : Q) :
  variants t <> [] ->
  exists v,
    pickVariant t e s timeRemaining true = Some v
    /\ In v (variants t)
    /\ ((exists w, In w (variants t) /\ (inject_Z (v_duration_minutes w) <= timeRemaining)%Q) ->
        (inject_Z (v_duration_minutes v) <= timeRemaining)%Q
        /\ forall w, In w (variants t) ->
                     (inject_Z (v_duration_minutes w) <= timeRemaining)%Q ->
                     v_duration_minutes v <= v_duration_minutes w)
    /\ ((forall w, In w (variants t) -> (timeRemaining < inject_Z (v_duration_minutes w))%Q) ->
        forall w, In w (variants t) -> v_duration_minutes v <= v_duration_minutes w).
Proof.
  intros Hne. rewrite (pickVariant_pressure_head t e s timeRemaining Hne).
  destruct (JS.sort byDuration (variants t)) as [|v rest] eqn:Hs.
  { destruct (variants t); [congruence | now apply sort_nonempty in Hs]. }
  assert (Hleast : forall w, In w (variants t) -> v_duration_minutes v <= v_duration_minutes w).
  { intros w Hw.
    exact (sort_head_least byDuration v_duration_minutes (fun a b => eq_refl) _ _ _ Hs w Hw). }
  exists v. split; [reflexivity |]. split.
  { apply (In_sort byDuration). rewrite Hs. now left. }
  split.
  - intros (w & Hw & Hfit). split.
    + specialize (Hleast w Hw). rewrite Zle_Qle in Hleast. lra.
    + intros w' Hw' _. now apply Hleast.
  - intros _. exact Hleast.
Qed.

Lemma pickVariant_pressure_shortest_witness :
  exists v, pickVariant breakfast 6 "ok" 20 true = Some v /\ v_duration_minutes v = 5.
Proof.
  destruct (pickVariant_pressure_shortest breakfast 6 "ok" 20) as (v & Hv & _).
  - simpl. discriminate.
  - exists v. split; [exact Hv |].
    vm_compute in Hv. injection Hv as <-. reflexivity.
Defined.

(** ** The three passes of the day plan *)

Section PassFacts.
Variable morningData : MorningData.
Variable avail : Q.

Lemma totalScheduled_app p q :
  totalScheduled (p ++ q) = totalScheduled p + totalScheduled q.
Proof.
  induction p as [|i p IH]; simpl; [reflexivity | rewrite IH; lia].
Qed.

Lemma extends_nil P l st : extends P l st st [].
Proof.
  unfold extends. split; [now rewrite app_nil_r |].
  split; [cbn [totalScheduled fold_right]; lia | constructor].
Qed.

Lemma extends_weaken P l x st st' extra :
  extends P l st st' extra -> extends P (x :: l) st st' extra.
Proof.
  intros (Hp & Hu & Hall). repeat split; try assumption.
  eapply List.Forall_impl; [| exact Hall]. cbn. intros i [Hi Hin]. split; [exact Hi | now right].
Qed.

Lemma extends_cons P l x st i st' extra :
  P i -> scored i = x ->
  extends P l (fst st ++ [i], snd st + scheduledDuration i) st' extra ->
  extends P (x :: l) st st' (i :: extra).
Proof.
  intros HP Hx (Hp & Hu & Hall). cbn [fst snd] in *. repeat split.
  - rewrite Hp, <- app_assoc. reflexivity.
  - rewrite Hu.
    change (totalScheduled (i :: extra)) with (scheduledDuration i + totalScheduled extra).
    lia.
  - constructor.
    + split; [exact HP | now left].
    + eapply List.Forall_impl; [| exact Hall]. cbn. intros j [Hj Hin]. split; [exact Hj | now right].
Qed.

(** One iteration of each loop, by cases. *)
Lemma mandatoryStep_push p u x :
  exists it,
    scored it = x /\ pinned it = true
    /\ mandatoryStep morningData avail (p, u) x = (p ++ [it], u + scheduledDuration it).
Proof.
  unfold mandatoryStep. cbv zeta.
  refine (ex_intro _ {| scored := x; scheduledDuration := _; displayName := _;
                        variant := _; pinned := _; compressed := _ |} _).
  cbn [scored pinned scheduledDuration]. split; [| split].
  3: reflexivity. all: reflexivity.
Qed.

Lemma criticalStep_cases timePressure p u x :
  (exists it,
      scored it = x
      /\ (pinned it = false /\ compressed it = timePressure && isSome (variant it))
      /\ (inject_Z (u + scheduledDuration it) <= avail + 15)%Q
      /\ criticalStep morningData avail timePressure (p, u) x
         = (p ++ [it], u + scheduledDuration it))
  \/ criticalStep morningData avail timePressure (p, u) x = (p, u).
Proof.
  unfold criticalStep.
  match goal with
  | |- context [JS.leb ?a ?b] => destruct (JS.leb a b) eqn:Hadm
  end.
  - left.
    refine (ex_intro _ {| scored := x; scheduledDuration := _; displayName := _;
                          variant := _; pinned := _; compressed := _ |} _).
    cbn [scored pinned scheduledDuration compressed variant].
    split; [| split; [| split]].
    4: reflexivity. 1: reflexivity. 1: (split; reflexivity).
    now apply leb_le.
  - now right.
Qed.

Lemma normalPass_cases p u x l :
  (exists it,
      scored it = x /\ pinned it = false
      /\ (inject_Z (u + scheduledDuration it) <= avail)%Q
      /\ normalPass morningData avail (x :: l) (p, u)
         = normalPass morningData avail l (p ++ [it], u + scheduledDuration it))
  \/ normalPass morningData avail (x :: l) (p, u) = normalPass morningData avail l (p, u)
  \/ normalPass morningData avail (x :: l) (p, u) = (p, u).
Proof.
  cbn [normalPass].
  destruct (JS.leb avail (inject_Z u)); [now right; right |].
  match goal with
  | |- context [JS.leb (inject_Z ?a) avail] => destruct (JS.leb (inject_Z a) avail) eqn:Hadm
  end.
  - left.
    refine (ex_intro _ {| scored := x; scheduledDuration := _; displayName := _;
                          variant := _; pinned := _; compressed := _ |} _).
    cbn [scored pinned scheduledDuration]. split; [| split; [| split]].
    4: reflexivity. 1, 2: reflexivity.
    now apply leb_le.
  - now right; left.
Qed.

(** The mandatory pass admits every task of the tier, pinned. *)
Lemma mandatory_pass l st :
  exists extra,
    extends (fun i => pinned i = true) l st
      (fold_left (mandatoryStep morningData avail) l st) extra
    /\ forall s, In s l -> exists i, In i extra /\ scored i = s /\ pinned i = true.
Proof.
  revert st. induction l as [|x l IH]; intros [p u].
  - exists []. split; [apply extends_nil | intros s []].
  - cbn [fold_left].
    destruct (mandatoryStep_push p u x) as (it & Hsc & Hpin & ->).
    destruct (IH (p ++ [it], u + scheduledDuration it)) as (extra & Hext & Hall).
    exists (it :: extra). split.
    + now apply (extends_cons _ l x (p, u) it).
    + intros s [<- | Hs].
      * exists it. split; [now left | split; assumption].
      * destruct (Hall s Hs) as (i & Hi & Hsi & Hpi).
        exists i. split; [now right | split; assumption].
Qed.

(** The critical pass admits within the grace band only. *)
Lemma critical_pass timePressure l st :
  exists extra,
    extends (fun i => pinned i = false
                      /\ compressed i = timePressure && isSome (variant i)) l st
      (fold_left (criticalStep morningData avail timePressure) l st) extra
    /\ (extra = [] \/
        (inject_Z (snd (fold_left (criticalStep morningData avail timePressure) l st))
         <= avail + 15)%Q).
Proof.
  revert st. induction l as [|x l IH]; intros [p u].
  - exists []. split; [apply extends_nil | now left].
  - cbn [fold_left].
    destruct (criticalStep_cases timePressure p u x) as [(it & Hsc & Hpin & Hle & ->) | ->].
    + destruct (IH (p ++ [it], u + scheduledDuration it)) as (extra & Hext & Hb).
      exists (it :: extra). split.
      * now apply (extends_cons _ l x (p, u) it).
      * right. destruct Hb as [-> | Hb]; [| exact Hb].
        destruct Hext as (_ & Hu & _). rewrite Hu.
        cbn [snd totalScheduled fold_right]. now rewrite Z.add_0_r.
    + destruct (IH (p, u)) as (extra & Hext & Hb).
      exists extra. split; [now apply extends_weaken | exact Hb].
Qed.

(** The normal pass admits within the budget only. *)
Lemma normal_pass l st :
  exists extra,
    extends (fun i => pinned i = false) l st (normalPass morningData avail l st) extra
    /\ (extra = [] \/ (inject_Z (snd (normalPass morningData avail l st)) <= avail)%Q).
Proof.
  revert st. induction l as [|x l IH]; intros [p u].
  - exists []. split; [apply extends_nil | now left].
  - destruct (normalPass_cases p u x l) as [(it & Hsc & Hpin & Hle & ->) | [-> | ->]].
    + destruct (IH (p ++ [it], u + scheduledDuration it)) as (extra & Hext & Hb).
      exists (it :: extra). split.
      * now apply (extends_cons _ l x (p, u) it).
      * right. destruct Hb as [-> | Hb]; [| exact Hb].
        destruct Hext as (_ & Hu & _). rewrite Hu.
        cbn [snd totalScheduled fold_right]. now rewrite Z.add_0_r.
    + destruct (IH (p, u)) as (extra & Hext & Hb).
      exists extra. split; [now apply extends_weaken | exact Hb].
    + exists []. split; [apply extends_nil | now left].
Qed.

End PassFacts.

(** ** The scored tasks and the tiers *)

Section ScoreFacts.
Variable morningData : MorningData.
Variable learnedData : gmap string Learned.
Variable today : Today.

Lemma scoreTask_None t :
  scoreTask t morningData learnedData today = None <-> notAvailableToday t today = true.
Proof.
  unfold scoreTask.
  destruct (notAvailableToday t today); [easy |].
  destruct (isBlocked t learnedData); easy.
Qed.

Lemma scoreTask_Some t s :
  scoreTask t morningData learnedData today = Some s ->
  task s = t /\ blocked s = isBlocked t learnedData
  /\ notAvailableToday t today = false.
Proof.
  unfold scoreTask.
  destruct (notAvailableToday t today); [discriminate |].
  destruct (isBlocked t learnedData); intros [= <-]; easy.
Qed.

Lemma In_filterBoolean {A : Type} (x : A) l : In x (filterBoolean l) <-> In (Some x) l.
Proof.
  induction l as [|[y|] l IH]; cbn.
  - tauto.
  - rewrite IH. split; intros [H | H]; auto; left; congruence.
  - rewrite IH. split; [auto | intros [H | H]; [discriminate | exact H]].
Qed.

Lemma In_scoredToday tasks s :
  In s (scoredToday tasks morningData learnedData today) <->
  exists t, In t tasks /\ scoreTask t morningData learnedData today = Some s
            /\ blocked s = false.
Proof.
  unfold scoredToday. rewrite filter_In, In_filterBoolean, in_map_iff, negb_true_iff.
  split.
  - intros [(t & Hs & Ht) Hb]. now exists t.
  - intros (t & Ht & Hs & Hb). split; [now exists t | exact Hb].
Qed.

Lemma In_tier kind l s : In s (tier kind l) <-> In s l /\ kind s = true.
Proof. unfold tier. rewrite In_sort. apply filter_In. Qed.

End ScoreFacts.

(** ** The shape of the plan *)

Section PlanShape.
Variable tasks : list Task.
Variable morningData : MorningData.
Variable learnedData : gmap string Learned.
Variable today : Today.

Let scoredL := scoredToday tasks morningData learnedData today.
Let result := buildDayPlan tasks morningData learnedData today.

(** The plan is the mandatory entries, then the admitted critical ones,
    then the admitted normal ones; [minutesUsed] is its total. *)
Lemma plan_shape :
  exists m c n,
    plan result = m ++ c ++ n
    /\ minutesUsed result = totalScheduled (plan result)
    /\ Forall (fun i => pinned i = true /\ In (scored i) (tier isMandatory scoredL)) m
    /\ (forall s, In s (tier isMandatory scoredL) ->
                  exists i, In i m /\ scored i = s /\ pinned i = true)
    /\ Forall
         (fun i =>
            (pinned i = false
             /\ compressed i
                = JS.ltb
                    (availableMinutes result
                     - inject_Z (mandatoryMinutes tasks morningData learnedData today))
                    (inject_Z (critMinsNormalOf (tier isCritical scoredL)))
                  && isSome (variant i))
            /\ In (scored i) (tier isCritical scoredL)) c
    /\ Forall (fun i => pinned i = false /\ In (scored i) (tier isNormal scoredL)) n
    /\ totalScheduled m = mandatoryMinutes tasks morningData learnedData today
    /\ (c = [] \/ (inject_Z (totalScheduled (m ++ c)) <= availableMinutes result + 15)%Q)
    /\ (n = [] \/ (inject_Z (totalScheduled (m ++ c ++ n)) <= availableMinutes result)%Q).
Proof.
  subst result scoredL. unfold buildDayPlan, mandatoryMinutes. cbv zeta.
  cbn [plan minutesUsed availableMinutes].
  fold (scoredToday tasks morningData learnedData today).
  fold isMandatory isCritical isNormal.
  fold (tier isMandatory (scoredToday tasks morningData learnedData today)).
  fold (tier isCritical (scoredToday tasks morningData learnedData today)).
  fold (tier isNormal (scoredToday tasks morningData learnedData today)).
  set (avail := (hours morningData * 60)%Q).
  destruct (mandatory_pass morningData avail
              (tier isMandatory (scoredToday tasks morningData learnedData today)) ([], 0))
    as (m & (Hmp & Hmu & Hmall) & Hmin).
  set (st0 := fold_left (mandatoryStep morningData avail) _ _) in *.
  set (tp := JS.ltb _ _).
  destruct (critical_pass morningData avail tp
              (tier isCritical (scoredToday tasks morningData learnedData today)) st0)
    as (c & (Hcp & Hcu & Hcall) & Hcb).
  set (st1 := fold_left (criticalStep morningData avail tp) _ _) in *.
  destruct (normal_pass morningData avail
              (tier isNormal (scoredToday tasks morningData learnedData today)) st1)
    as (n & (Hnp & Hnu & Hnall) & Hnb).
  set (st2 := normalPass morningData avail _ _) in *.
  cbn [fst snd app] in Hmp, Hmu.
  assert (Hplan : fst st2 = m ++ c ++ n).
  { rewrite Hnp, Hcp, Hmp. now rewrite app_assoc. }
  assert (Hused : snd st2 = totalScheduled (m ++ c ++ n)).
  { rewrite Hnu, Hcu, Hmu, !totalScheduled_app. lia. }
  exists m, c, n.
  split; [exact Hplan |].
  split; [now rewrite Hplan |].
  split; [exact Hmall |].
  split; [exact Hmin |].
  split; [exact Hcall |].
  split; [exact Hnall |].
  split; [rewrite Hmu; lia |].
  split.
  - destruct Hcb as [-> | Hcb]; [now left | right].
    rewrite totalScheduled_app. rewrite Hcu, Hmu in Hcb.
    now rewrite Z.add_0_l in Hcb.
  - destruct Hnb as [-> | Hnb]; [now left | right].
    now rewrite <- Hused.
Qed.

End PlanShape.

Section PlanMembership.
Variable tasks : list Task.
Variable morningData : MorningData.
Variable learnedData : gmap string Learned.
Variable today : Today.

(** Every entry of the plan comes from a task of the input that
    [scoreTask] scored and did not block. *)
Lemma plan_item_origin i :
  In i (plan (buildDayPlan tasks morningData learnedData today)) ->
  exists t, In t tasks
            /\ scoreTask t morningData learnedData today = Some (scored i)
            /\ blocked (scored i) = false.
Proof.
  destruct (plan_shape tasks morningData learnedData today)
    as (m & c & n & Hplan & _ & Hm & _ & Hc & Hn & _).
  rewrite Hplan, !in_app_iff. rewrite List.Forall_forall in Hm, Hc, Hn.
  intros [Hi | [Hi | Hi]];
    [apply Hm in Hi | apply Hc in Hi | apply Hn in Hi];
    destruct Hi as [_ Hi]; apply In_tier in Hi; destruct Hi as [Hi _];
    now apply In_scoredToday in Hi.
Qed.

(** A task that is available today and not blocked is scored. *)
Lemma scoreTask_available t :
  notAvailableToday t today = false -> isBlocked t learnedData = false ->
  exists s, scoreTask t morningData learnedData today = Some s
            /\ task s = t /\ blocked s = false.
Proof.
  intros Hav Hbl.
  destruct (scoreTask t morningData learnedData today) as [s|] eqn:Hs.
  - exists s. destruct (scoreTask_Some _ _ _ _ _ Hs) as (Ht & Hb & _).
    split; [reflexivity |]. split; [exact Ht | congruence].
  - apply scoreTask_None in Hs. congruence.
Qed.

End PlanMembership.

(** A run: breakfast is pinned at its best-matching variant, both critical
    tasks are compressed to their shortest variants within the grace band,
    and the normal task finds the budget used up. *)
Example tight_day_plan :
  let r := buildDayPlan [reportTask; exerciseTask; breakfast; emailTriage]
             tightDay ∅ aMonday in
  map (fun i => (displayName i, scheduledDuration i, pinned i, compressed i)) (plan r)
  = [ ("Breakfast — Full cooked breakfast"%string, 35, true, false);
      ("Q1 Report — Outline"%string, 60, false, true);
      ("Exercise — Full workout"%string, 60, false, true) ]
  /\ minutesUsed r = 155
  /\ map type (alerts r) = ["error"%string].
Proof. vm_compute. repeat split. Qed.

(** C1, as the code has it: [minutesUsed] is the sum of [scheduledDuration]
    over the plan, and that sum is at most [availableMinutes + 15] unless
    the plan holds mandatory (pinned) entries only, in which case it is the
    total of the mandatory pass, which no budget check limits. *)
Theorem buildDayPlan_total_bound (tasks : list Task) (morningData : MorningData)
    (learnedData : gmap string Learned) (today : Today) :
  let r := buildDayPlan tasks morningData learnedData today in
  minutesUsed r = totalScheduled (plan r)
  /\ ((inject_Z (totalScheduled (plan r)) <= availableMinutes r + 15)%Q
      \/ (Forall (fun i => pinned i = true) (plan r)
          /\ totalScheduled (plan r)
             = mandatoryMinutes tasks morningData learnedData today)).
Proof.
  intros r. subst r.
  destruct (plan_shape tasks morningData learnedData today)
    as (m & c & n & Hplan & Hused & Hm & _ & _ & _ & Hmm & Hcb & Hnb).
  split; [exact Hused |]. rewrite Hplan.
  destruct Hnb as [-> | Hnb].
  - rewrite app_nil_r. destruct Hcb as [-> | Hcb].
    + right. rewrite app_nil_r. split; [| exact Hmm].
      eapply List.Forall_impl; [| exact Hm]. cbn. now intros i [Hi _].
    + now left.
  - left. lra.
Qed.

Lemma buildDayPlan_total_bound_witness :
  let r := buildDayPlan [reportTask; exerciseTask; breakfast; emailTriage]
             tightDay ∅ aMonday in
  minutesUsed r = totalScheduled (plan r)
  /\ (inject_Z (totalScheduled (plan r)) <= availableMinutes r + 15)%Q.
Proof.
  intros r.
  destruct (buildDayPlan_total_bound [reportTask; exerciseTask; breakfast; emailTriage]
              tightDay ∅ aMonday) as [Hused _].
  split; [exact Hused |]. vm_compute. discriminate.
Defined.

(** C1 as stated fails: the plan of one mandatory task of 120 minutes on a
    day of 60 available minutes totals 120 minutes, above 60 + 15. *)
Lemma buildDayPlan_total_bound_fails :
  let r := buildDayPlan [longMandatory] shortDay ∅ aMonday in
  ~ (inject_Z (totalScheduled (plan r)) <= availableMinutes r + 15)%Q.
Proof.
  intros r. apply Qlt_not_le. vm_compute. reflexivity.
Qed.

(** C2: every mandatory task of the input that is available today and not
    blocked has an entry in the plan, flagged [pinned], whatever the hours
    available. *)
Theorem mandatory_always_planned (tasks : list Task) (morningData : MorningData)
    (learnedData : gmap string Learned) (today : Today) (t : Task) :
  In t tasks ->
  mandatory t = true ->
  notAvailableToday t today = false ->
  isBlocked t learnedData = false ->
  exists i,
    In i (plan (buildDayPlan tasks morningData learnedData today))
    /\ task (scored i) = t /\ pinned i = true.
Proof.
  intros Hin Hman Hav Hbl.
  destruct (scoreTask_available morningData learnedData today t Hav Hbl)
    as (s & Hs & Hts & Hbs).
  destruct (plan_shape tasks morningData learnedData today)
    as (m & c & n & Hplan & _ & _ & Hall & _).
  destruct (Hall s) as (i & Hi & Hsi & Hpi).
  { apply In_tier. split.
    - apply In_scoredToday. now exists t.
    - unfold isMandatory. now rewrite Hts. }
  exists i. rewrite Hplan, in_app_iff. split; [now left |].
  split; [now rewrite Hsi | exact Hpi].
Qed.

Lemma mandatory_always_planned_witness :
  In longMandatory [longMandatory]
  /\ mandatory longMandatory = true
  /\ notAvailableToday longMandatory aMonday = false
  /\ isBlocked longMandatory ∅ = false
  /\ exists i,
       In i (plan (buildDayPlan [longMandatory] noTimeDay ∅ aMonday))
       /\ task (scored i) = longMandatory /\ pinned i = true.
Proof.
  split; [now left |]. split; [reflexivity |]. split; [reflexivity |].
  split; [reflexivity |].
  apply (mandatory_always_planned [longMandatory] noTimeDay ∅ aMonday longMandatory);
    [now left | reflexivity | reflexivity | reflexivity].
Defined.

(** C8: a task whose [days_available] is not empty and does not hold
    today's weekday gets [null] from [scoreTask], has no entry in the plan
    and is not in the blocked list. *)
Theorem unavailable_task_excluded (tasks : list Task) (morningData : MorningData)
    (learnedData : gmap string Learned) (today : Today) (t : Task) :
  days_available t <> [] ->
  (forall d, nth_error DAY_NAMES (getDay today) = Some d -> ~ In d (days_available t)) ->
  let r := buildDayPlan tasks morningData learnedData today in
  scoreTask t morningData learnedData today = None
  /\ (forall i, In i (plan r) -> task (scored i) <> t)
  /\ ~ In t (blockedTasks r).
Proof.
  intros Hne Hday r.
  assert (Hnone : scoreTask t morningData learnedData today = None).
  { apply scoreTask_None. unfold notAvailableToday.
    destruct (days_available t) as [|d0 ds] eqn:Hd; [congruence |].
    apply negb_true_iff. unfold includes.
    destruct (nth_error DAY_NAMES (getDay today)) as [d|] eqn:Hn; [| reflexivity].
    apply not_true_iff_false. intros Hex. apply existsb_exists in Hex.
    destruct Hex as (x & Hx & Heq). apply String.eqb_eq in Heq. subst x.
    exact (Hday d eq_refl Hx). }
  split; [exact Hnone |]. split.
  - intros i Hi Heq.
    destruct (plan_item_origin _ _ _ _ _ Hi) as (t' & _ & Hs & _).
    destruct (scoreTask_Some _ _ _ _ _ Hs) as (Ht' & _).
    rewrite Heq in Ht'. subst t'. congruence.
  - subst r. unfold buildDayPlan. cbn [blockedTasks]. rewrite filter_In.
    intros [_ Hb]. now rewrite Hnone in Hb.
Qed.

Lemma unavailable_task_excluded_witness :
  days_available weeklyReview <> []
  /\ scoreTask weeklyReview shortDay ∅ aMonday = None
  /\ ~ In weeklyReview (blockedTasks (buildDayPlan [weeklyReview] shortDay ∅ aMonday)).
Proof.
  split; [discriminate |].
  destruct (unavailable_task_excluded [weeklyReview] shortDay ∅ aMonday weeklyReview)
    as (Hnone & _ & Hblocked).
  - discriminate.
  - intros d [= <-] [Hd | [Hd | []]]; discriminate.
  - split; assumption.
Defined.

(** ** Alerts *)

Section AlertFacts.
Variable tasks : list Task.
Variable morningData : MorningData.
Variable learnedData : gmap string Learned.
Variable today : Today.

Let scoredL := scoredToday tasks morningData learnedData today.
Let result := buildDayPlan tasks morningData learnedData today.

Lemma alerts_shape :
  alerts result =
    pressureAlerts
      (availableMinutes result
       - inject_Z (mandatoryMinutes tasks morningData learnedData today))
      (critMinsNormalOf (tier isCritical scoredL))
      (critMinsCompressedOf (tier isCritical scoredL))
    ++ (if negb (Nat.eqb (length (List.filter overdueOver10 scoredL)) 0)
        then [overdueAlert] else [])
    ++ (if (energy morningData <=? 3) || String.eqb (sleep morningData) "terrible"
        then [lowEnergyAlert] else []).
Proof.
  subst result scoredL. unfold buildDayPlan, mandatoryMinutes. cbv zeta.
  cbn [alerts availableMinutes].
  fold (scoredToday tasks morningData learnedData today).
  fold isMandatory isCritical.
  fold (tier isMandatory (scoredToday tasks morningData learnedData today)).
  fold (tier isCritical (scoredToday tasks morningData learnedData today)).
  fold overdueAlert lowEnergyAlert.
  destruct (negb _); destruct (_ || _);
    rewrite ?app_nil_r, <- ?app_assoc; reflexivity.
Qed.

Lemma pressureAlerts_all rem cn cc a :
  In a (pressureAlerts rem cn cc) -> isPressureAlert a = true.
Proof.
  unfold pressureAlerts.
  destruct (JS.ltb rem (inject_Z cn)); [| intros []].
  destruct (JS.leb (inject_Z cc) rem); intros [<- | []]; reflexivity.
Qed.

Lemma filter_pressure_id l :
  (forall a, In a l -> isPressureAlert a = true) -> List.filter isPressureAlert l = l.
Proof.
  induction l as [|a l IH]; intros Hall; cbn; [reflexivity |].
  rewrite (Hall a (or_introl eq_refl)). f_equal. apply IH.
  intros b Hb. apply Hall. now right.
Qed.

(** The alerts of the time-pressure check are the ones in front. *)
Lemma alerts_pressure_part :
  List.filter isPressureAlert (alerts result) =
    pressureAlerts
      (availableMinutes result
       - inject_Z (mandatoryMinutes tasks morningData learnedData today))
      (critMinsNormalOf (tier isCritical scoredL))
      (critMinsCompressedOf (tier isCritical scoredL)).
Proof.
  rewrite alerts_shape, !List.filter_app.
  rewrite filter_pressure_id by apply pressureAlerts_all.
  destruct (negb _); destruct (_ || _); cbn; now rewrite ?app_nil_r.
Qed.

Lemma some_overdue_iff :
  negb (Nat.eqb (length (List.filter overdueOver10 scoredL)) 0) = true <->
  exists s p, In s scoredL /\ overduePts s = Some p /\ (10 < p)%Q.
Proof.
  rewrite negb_true_iff, Nat.eqb_neq. split.
  - destruct (List.filter overdueOver10 scoredL) as [|s l] eqn:Hf; [easy |].
    intros _. assert (Hs : In s (List.filter overdueOver10 scoredL)) by (rewrite Hf; now left).
    apply filter_In in Hs. destruct Hs as [Hs Ho]. unfold overdueOver10 in Ho.
    destruct (overduePts s) as [p|] eqn:Hp; [| discriminate].
    exists s, p. split; [exact Hs |]. split; [exact Hp | now apply ltb_lt].
  - intros (s & p & Hs & Hp & Hlt).
    assert (Hin : In s (List.filter overdueOver10 scoredL)).
    { apply filter_In. split; [exact Hs |]. unfold overdueOver10. rewrite Hp.
      now apply ltb_lt. }
    destruct (List.filter overdueOver10 scoredL); [destruct Hin | discriminate].
Qed.

End AlertFacts.

Lemma In_alerts_cases (pa : list Alert) (b1 b2 : bool) (a : Alert) :
  In a (pa ++ (if b1 then [overdueAlert] else []) ++ (if b2 then [lowEnergyAlert] else []))
  <-> In a pa \/ (b1 = true /\ a = overdueAlert) \/ (b2 = true /\ a = lowEnergyAlert).
Proof.
  rewrite !in_app_iff. destruct b1, b2; cbn [In]; intuition congruence.
Qed.

(** C6, as the code has it: the alert "Overdue tasks auto-promoted" is in
    the result exactly when some scored task has an overdue bonus above 10,
    and its severity is [warning]; the alert "Low-energy bonus active" is in
    the result exactly when the morning energy is at most 3 or sleep is
    "terrible", and its severity is [info]. *)
Theorem buildDayPlan_context_alerts (tasks : list Task) (morningData : MorningData)
    (learnedData : gmap string Learned) (today : Today) :
  let r := buildDayPlan tasks morningData learnedData today in
  (In {| type := "warning"; message := OverduePromoted |} (alerts r) <->
   exists s p, In s (scoredToday tasks morningData learnedData today)
               /\ overduePts s = Some p /\ (10 < p)%Q)
  /\ (forall a, In a (alerts r) -> message a = OverduePromoted -> type a = "warning"%string)
  /\ (In {| type := "info"; message := LowEnergy |} (alerts r) <->
      energy morningData <= 3 \/ sleep morningData = "terrible"%string)
  /\ (forall a, In a (alerts r) -> message a = LowEnergy -> type a = "info"%string).
Proof.
  intros r. subst r.
  rewrite <- (some_overdue_iff tasks morningData learnedData today).
  assert (Hlow : (energy morningData <=? 3) || String.eqb (sleep morningData) "terrible" = true
                 <-> energy morningData <= 3 \/ sleep morningData = "terrible"%string).
  { rewrite orb_true_iff, Z.leb_le, String.eqb_eq. reflexivity. }
  rewrite <- Hlow. clear Hlow.
  assert (Hshape := alerts_shape tasks morningData learnedData today).
  cbv zeta in Hshape.
  set (pa := pressureAlerts _ _ _) in Hshape.
  assert (Hpa : forall a, In a pa -> isPressureAlert a = true)
    by (intros a; apply pressureAlerts_all).
  set (b1 := negb _) in *. set (b2 := (_ || _)) in *.
  rewrite Hshape. clear Hshape.
  split; [| split; [| split]].
  - change {| type := "warning"; message := OverduePromoted |} with overdueAlert.
    rewrite In_alerts_cases. split.
    + intros [H | [[H _] | [_ H]]]; [apply Hpa in H | |]; easy.
    + intros H. right; left. now split.
  - intros a Ha Hm. apply In_alerts_cases in Ha.
    destruct Ha as [H | [[_ ->] | [_ ->]]]; [| reflexivity | discriminate].
    apply Hpa in H. unfold isPressureAlert in H. now rewrite Hm in H.
  - change {| type := "info"; message := LowEnergy |} with lowEnergyAlert.
    rewrite In_alerts_cases. split.
    + intros [H | [[_ H] | [H _]]]; [apply Hpa in H | |]; easy.
    + intros H. right; right. now split.
  - intros a Ha Hm. apply In_alerts_cases in Ha.
    destruct Ha as [H | [[_ ->] | [_ ->]]]; [| discriminate | reflexivity].
    apply Hpa in H. unfold isPressureAlert in H. now rewrite Hm in H.
Qed.

Lemma buildDayPlan_context_alerts_witness :
  exists s p, In s (scoredToday [emailTriage] shortDay emailLearned tenDaysLater)
              /\ overduePts s = Some p /\ (10 < p)%Q.
Proof.
  destruct (buildDayPlan_context_alerts [emailTriage] shortDay emailLearned tenDaysLater)
    as [[Hoverdue _] _].
  apply Hoverdue. vm_compute. now left.
Defined.

(** C6 as stated fails: with a scored task whose overdue bonus is 15 the
    result holds no alert of severity [info] with the overdue text. *)
Lemma overdue_alert_not_info :
  let r := buildDayPlan [emailTriage] shortDay emailLearned tenDaysLater in
  (exists s p, In s (scoredToday [emailTriage] shortDay emailLearned tenDaysLater)
               /\ overduePts s = Some p /\ (10 < p)%Q)
  /\ ~ In {| type := "info"; message := OverduePromoted |} (alerts r).
Proof.
  intros r. split.
  - destruct (scoreTask emailTriage shortDay emailLearned tenDaysLater) as [s|] eqn:Hs;
      [| vm_compute in Hs; discriminate].
    exists s, 15%Q. split.
    + unfold scoredToday. cbn [map filterBoolean]. rewrite Hs. cbn [filterBoolean].
      vm_compute in Hs. injection Hs as <-. now left.
    + vm_compute in Hs. injection Hs as <-. split; reflexivity.
  - subst r. vm_compute. intros [H | []]. discriminate.
Qed.

(** ** The time-pressure check of the critical tier *)

Section PressureFacts.

Lemma fold_left_sum {A : Type} (f : A -> Z) (l : list A) (a : Z) :
  fold_left (fun s t => s + f t) l a = a + fold_right (fun t acc => f t + acc) 0 l.
Proof.
  revert a. induction l as [|x l IH]; intros a; cbn [fold_left fold_right].
  - lia.
  - rewrite IH. lia.
Qed.

Lemma critMinsNormalOf_total l : critMinsNormalOf l = totalEffective l.
Proof. unfold critMinsNormalOf, totalEffective. now rewrite fold_left_sum. Qed.

Lemma critMinsCompressedOf_total l : critMinsCompressedOf l = totalCompressed l.
Proof.
  unfold critMinsCompressedOf, totalCompressed.
  rewrite <- (Z.add_0_l (fold_right _ 0 l)), <- (fold_left_sum compressedDuration).
  generalize 0. induction l as [|t l IH]; intros a; cbn [fold_left]; [reflexivity |].
  rewrite <- IH. f_equal. unfold compressedDuration.
  now destruct (variants (task t)).
Qed.

(** [shortestOf] is the least duration among the variants. *)
Lemma fold_min_le (l : list Z) (a : Z) :
  fold_left Z.min l a <= a /\ forall x, In x l -> fold_left Z.min l a <= x.
Proof.
  revert a. induction l as [|y l IH]; intros a; cbn [fold_left].
  - split; [lia | intros x []].
  - destruct (IH (Z.min a y)) as [Ha Hall]. split; [lia |].
    intros x [<- | Hx]; [lia | now apply Hall].
Qed.

Lemma shortestOf_least v vs w :
  In w (v :: vs) -> shortestOf v vs <= v_duration_minutes w.
Proof.
  unfold shortestOf.
  destruct (fold_min_le (map v_duration_minutes vs) (v_duration_minutes v)) as [Hv Hall].
  intros [<- | Hw]; [exact Hv |]. apply Hall. now apply in_map.
Qed.

End PressureFacts.

Section CriticalEntries.
Variable tasks : list Task.
Variable morningData : MorningData.
Variable learnedData : gmap string Learned.
Variable today : Today.

(** The entries of the plan made from critical tasks carry the pressure
    flag of the check. *)
Lemma critical_entry_compressed i :
  In i (plan (buildDayPlan tasks morningData learnedData today)) ->
  isCritical (scored i) = true ->
  compressed i
  = JS.ltb
      (availableMinutes (buildDayPlan tasks morningData learnedData today)
       - inject_Z (mandatoryMinutes tasks morningData learnedData today))
      (inject_Z (totalEffective
                   (tier isCritical (scoredToday tasks morningData learnedData today))))
    && isSome (variant i).
Proof.
  destruct (plan_shape tasks morningData learnedData today)
    as (m & c & n & Hplan & _ & Hm & _ & Hc & Hn & _).
  rewrite Hplan, !in_app_iff. rewrite List.Forall_forall in Hm, Hc, Hn.
  rewrite <- critMinsNormalOf_total.
  intros [Hi | [Hi | Hi]] Hcrit.
  - apply Hm in Hi. destruct Hi as [_ Hi]. apply In_tier in Hi. destruct Hi as [_ Hk].
    unfold isMandatory in Hk. unfold isCritical in Hcrit. rewrite Hk in Hcrit. discriminate.
  - apply Hc in Hi. now destruct Hi as [[_ Hi] _].
  - apply Hn in Hi. destruct Hi as [_ Hi]. apply In_tier in Hi. destruct Hi as [_ Hk].
    unfold isNormal in Hk. unfold isCritical in Hcrit.
    destruct (mandatory (task (scored i))), (critical (task (scored i))); discriminate.
Qed.

End CriticalEntries.

(** C4: with [remaining] the available minutes less the minutes of the
    mandatory pass, [normalTotal] the sum of the critical tasks' effective
    durations and [compressedTotal] the sum of their compressed durations:
    the pressure flag carried by the critical entries is
    [remaining < normalTotal]; under pressure the check emits exactly one
    alert, a warning when [compressedTotal <= remaining] and otherwise an
    error naming the shortfall [round(compressedTotal - remaining)];
    without pressure it emits none.  With 200 nominal, 120 compressed and
    150 remaining minutes the result holds the warning and no error. *)
Theorem critical_pressure_alerts (tasks : list Task) (morningData : MorningData)
    (learnedData : gmap string Learned) (today : Today) :
  let r := buildDayPlan tasks morningData learnedData today in
  let crit := tier isCritical (scoredToday tasks morningData learnedData today) in
  let remaining :=
    (availableMinutes r - inject_Z (mandatoryMinutes tasks morningData learnedData today))%Q in
  let normalTotal := inject_Z (totalEffective crit) in
  let compressedTotal := inject_Z (totalCompressed crit) in
  let pressure := List.filter isPressureAlert (alerts r) in
  (forall i, In i (plan r) -> isCritical (scored i) = true ->
             (compressed i = true <-> (remaining < normalTotal)%Q /\ variant i <> None))
  /\ ((remaining < normalTotal)%Q -> (compressedTotal <= remaining)%Q ->
      pressure = [ {| type := "warning"; message := TimeTight |} ])
  /\ ((remaining < normalTotal)%Q -> (remaining < compressedTotal)%Q ->
      exists needed left,
        pressure = [ {| type := "error";
                        message := Shortfall needed left
                                     (JS.Math_round (compressedTotal - remaining)) |} ])
  /\ ((normalTotal <= remaining)%Q -> pressure = [])
  /\ (totalEffective crit = 200 -> totalCompressed crit = 120 -> (remaining == 150)%Q ->
      In {| type := "warning"; message := TimeTight |} (alerts r)
      /\ forall a, In a (alerts r) -> type a <> "error"%string).
Proof.
  intros r crit remaining normalTotal compressedTotal pressure.
  assert (Hpress : pressure
                   = pressureAlerts remaining (totalEffective crit) (totalCompressed crit)).
  { subst pressure r remaining crit. rewrite alerts_pressure_part.
    now rewrite critMinsNormalOf_total, critMinsCompressedOf_total. }
  assert (Hwarn : (remaining < normalTotal)%Q -> (compressedTotal <= remaining)%Q ->
                  pressureAlerts remaining (totalEffective crit) (totalCompressed crit)
                  = [ {| type := "warning"; message := TimeTight |} ]).
  { intros Hp Hfit. unfold pressureAlerts.
    apply ltb_lt in Hp. apply leb_le in Hfit.
    fold normalTotal compressedTotal. now rewrite Hp, Hfit. }
  split; [| split; [| split; [| split]]].
  - intros i Hi Hcrit.
    rewrite (critical_entry_compressed tasks morningData learnedData today i Hi Hcrit).
    fold r crit remaining normalTotal.
    rewrite andb_true_iff, ltb_lt. destruct (variant i); cbn; split; intros [H1 H2]; easy.
  - intros Hp Hfit. rewrite Hpress. now apply Hwarn.
  - intros Hp Hnofit. rewrite Hpress. unfold pressureAlerts.
    apply ltb_lt in Hp. apply leb_gt in Hnofit.
    fold normalTotal compressedTotal. rewrite Hp, Hnofit. eauto.
  - intros Hnp. rewrite Hpress. unfold pressureAlerts.
    apply ltb_ge in Hnp. fold normalTotal. now rewrite Hnp.
  - intros Hn Hc Hrem.
    assert (Hp : (remaining < normalTotal)%Q).
    { subst normalTotal. rewrite Hn. change (inject_Z 200) with 200%Q. lra. }
    assert (Hfit : (compressedTotal <= remaining)%Q).
    { subst compressedTotal. rewrite Hc. change (inject_Z 120) with 120%Q. lra. }
    specialize (Hwarn Hp Hfit).
    pose proof (alerts_shape tasks morningData learnedData today) as Hshape.
    cbv zeta in Hshape. fold r in Hshape.
    rewrite critMinsNormalOf_total, critMinsCompressedOf_total in Hshape.
    fold crit remaining in Hshape. rewrite Hwarn in Hshape. rewrite Hshape.
    split; [now left |].
    intros a Ha. apply In_alerts_cases in Ha.
    destruct Ha as [[<- | []] | [[_ ->] | [_ ->]]]; discriminate.
Qed.

Lemma critical_pressure_alerts_witness :
  let r := buildDayPlan [reportTask; exerciseTask] tightDay ∅ aMonday in
  let crit := tier isCritical (scoredToday [reportTask; exerciseTask] tightDay ∅ aMonday) in
  totalEffective crit = 200
  /\ totalCompressed crit = 120
  /\ (availableMinutes r
      - inject_Z (mandatoryMinutes [reportTask; exerciseTask] tightDay ∅ aMonday) == 150)%Q
  /\ In {| type := "warning"; message := TimeTight |} (alerts r)
  /\ forall a, In a (alerts r) -> type a <> "error"%string.
Proof.
  intros r crit.
  assert (Hn : totalEffective crit = 200) by (vm_compute; reflexivity).
  assert (Hc : totalCompressed crit = 120) by (vm_compute; reflexivity).
  assert (Hr : (availableMinutes r
                - inject_Z (mandatoryMinutes [reportTask; exerciseTask] tightDay ∅ aMonday)
                == 150)%Q) by (vm_compute; reflexivity).
  split; [exact Hn |]. split; [exact Hc |]. split; [exact Hr |].
  destruct (critical_pressure_alerts [reportTask; exerciseTask] tightDay ∅ aMonday)
    as (_ & _ & _ & _ & Hscenario).
  exact (Hscenario Hn Hc Hr).
Defined.

(** ** Learning from reviews *)

Section ReviewFacts.

Lemma applyReview_lookup (learnedData : gmap string Learned) taskId parsedMin parsedEng d :
  applyReview learnedData taskId parsedMin parsedEng d !! taskId
  = Some (reviewedRecord (default freshLearned (learnedData !! taskId)) parsedMin parsedEng d).
Proof. unfold applyReview. apply lookup_insert_eq. Qed.

Lemma applyReview_other (learnedData : gmap string Learned) taskId other parsedMin parsedEng d :
  taskId <> other ->
  applyReview learnedData taskId parsedMin parsedEng d !! other = learnedData !! other.
Proof. intros Hne. unfold applyReview. now apply lookup_insert_ne. Qed.

Lemma orNullZ_Some x a : orNullZ x = Some a <-> x = Some a /\ a <> 0.
Proof.
  unfold orNullZ, JS.truthyZ. destruct x as [n|]; [| easy].
  destruct (Z.eqb_spec n 0); cbn; split.
  - discriminate.
  - intros [[= ->] Hne]. contradiction.
  - intros [= ->]. now split.
  - now intros [[= ->] _].
Qed.

Lemma orNullZ_None x : orNullZ x = None <-> x = None \/ x = Some 0.
Proof.
  unfold orNullZ, JS.truthyZ. destruct x as [n|]; [| now split; auto].
  destruct (Z.eqb_spec n 0); cbn; split.
  - intros _. right. now subst.
  - reflexivity.
  - discriminate.
  - intros [H | [= H]]; [discriminate | contradiction].
Qed.

Lemma truthyQ_false q : JS.truthyQ q = false <-> (q == 0)%Q.
Proof. unfold JS.truthyQ. rewrite negb_false_iff. apply Qeq_bool_iff. Qed.

Lemma truthyQ_true q : JS.truthyQ q = true <-> ~ (q == 0)%Q.
Proof.
  rewrite <- truthyQ_false. destruct (JS.truthyQ q); split; congruence.
Qed.

Lemma orQ_zero q : (JS.orQ q 0 == q)%Q.
Proof.
  unfold JS.orQ. destruct (JS.truthyQ q) eqn:Hq; [reflexivity |].
  apply truthyQ_false in Hq. now rewrite Hq.
Qed.

Lemma Math_round_comp x y : (x == y)%Q -> JS.Math_round x = JS.Math_round y.
Proof. intros Hxy. unfold JS.Math_round. now rewrite Hxy. Qed.

Lemma toDouble_comp x y : (x == y)%Q -> JS.toDouble x = JS.toDouble y.
Proof. intros Hxy. unfold JS.toDouble. now rewrite (Qred_complete x y Hxy). Qed.

End ReviewFacts.

(** C7, as the code has it: a review of a task writes a record with
    [count + 1]; its average duration is
    [round((avg_duration * count + actual) / (count + 1))] when a non-zero
    actual was read and is unchanged when none was read or the actual is 0;
    its average energy follows the same formula on doubles (the stored
    average and the actual as doubles, each operation rounded to the
    nearest double) brought to one decimal by [round(x * 10) / 10], with
    the same treatment of 0;
    [last_done] is the date of the review and [completed_today] is set.
    From no record, an actual of 42 gives count 1 and average 42; actuals of
    10 then 20 give count 2 and average 15. *)
Theorem applyReview_incremental_mean (learnedData : gmap string Learned) (taskId : string)
    (parsedMin : option Z) (parsedEng : option Q) (d : DateStr) :
  let prev := default freshLearned (learnedData !! taskId) in
  (0 <= count prev ->
   exists r,
     applyReview learnedData taskId parsedMin parsedEng d !! taskId = Some r
     /\ count r = count prev + 1
     /\ (forall a, parsedMin = Some a -> a <> 0 ->
           avg_duration r
           = JS.Math_round
               (inject_Z (avg_duration prev * count prev + a) / inject_Z (count prev + 1)))
     /\ (parsedMin = None \/ parsedMin = Some 0 -> avg_duration r = avg_duration prev)
     /\ (forall a, parsedEng = Some a -> ~ (JS.toDouble a == 0)%Q ->
           avg_energy r
           = JS.fdiv
               (inject_Z
                  (JS.Math_round
                     (JS.fmul
                        (JS.fdiv
                           (JS.fadd
                              (JS.fmul (JS.toDouble (avg_energy prev))
                                 (inject_Z (count prev)))
                              (JS.toDouble a))
                           (inject_Z (count prev + 1)))
                        10)))
               10)
     /\ ((parsedEng = None \/ exists a, parsedEng = Some a /\ (JS.toDouble a == 0)%Q) ->
         avg_energy r = avg_energy prev)
     /\ last_done r = Some d
     /\ completed_today r = true)
  /\ (learnedData !! taskId = None ->
      forall eng, exists r,
        applyReview learnedData taskId (Some 42) eng d !! taskId = Some r
        /\ count r = 1 /\ avg_duration r = 42)
  /\ (learnedData !! taskId = None ->
      forall eng1 eng2 d2, exists r,
        applyReview (applyReview learnedData taskId (Some 10) eng1 d)
          taskId (Some 20) eng2 d2 !! taskId = Some r
        /\ count r = 2 /\ avg_duration r = 15).
Proof.
  intros prev. split; [| split].
  - intros _. eexists. split; [apply applyReview_lookup |]. fold prev.
    split; [reflexivity |]. split; [| split; [| split; [| split; [| split]]]].
    + intros a Hpm Ha. cbn [avg_duration reviewedRecord].
      assert (Hor : orNullZ parsedMin = Some a) by now apply orNullZ_Some.
      rewrite Hor. now replace (count prev + 1 - 1) with (count prev) by lia.
    + intros Hpm. cbn [avg_duration reviewedRecord].
      apply orNullZ_None in Hpm. now rewrite Hpm.
    + intros a -> Ha. cbn [avg_energy reviewedRecord orNullQ option_map].
      apply truthyQ_true in Ha. rewrite Ha.
      replace (count prev + 1 - 1) with (count prev) by lia.
      unfold JS.fmul at 2.
      rewrite (toDouble_comp
                 (JS.orQ (JS.toDouble (avg_energy prev)) 0 * inject_Z (count prev))
                 (JS.toDouble (avg_energy prev) * inject_Z (count prev)));
        [reflexivity | now rewrite orQ_zero].
    + intros Hpe. cbn [avg_energy reviewedRecord].
      destruct Hpe as [-> | (a & -> & Ha)]; [reflexivity |].
      cbn [orNullQ option_map]. apply truthyQ_false in Ha. now rewrite Ha.
    + reflexivity.
    + reflexivity.
  - intros Hnone eng. eexists. split; [apply applyReview_lookup |].
    rewrite Hnone. split; reflexivity.
  - intros Hnone eng1 eng2 d2. eexists. split; [apply applyReview_lookup |].
    rewrite applyReview_lookup, Hnone. split; reflexivity.
Qed.

Lemma applyReview_incremental_mean_witness :
  0 <= count (default freshLearned (emailLearned !! "email-triage"%string))
  /\ exists r,
       applyReview emailLearned "email-triage" (Some 20) None 3 !! "email-triage"%string
       = Some r
       /\ count r = 2 /\ avg_duration r = 25.
Proof.
  split; [vm_compute; discriminate |].
  destruct (applyReview_incremental_mean emailLearned "email-triage" (Some 20) None 3)
    as [Hgen _].
  destruct Hgen as (r & Hr & Hcount & Hmean & _); [vm_compute; discriminate |].
  exists r. split; [exact Hr |]. split.
  - rewrite Hcount. reflexivity.
  - rewrite (Hmean 20 eq_refl); [reflexivity | discriminate].
Defined.

(** C7 as stated fails twice.  An actual of 0 minutes is supplied, yet the
    average stays 10 where the incremental mean gives
    round((10 * 1 + 0) / 2) = 5.  And from seven reviews averaging 1.4,
    an actual energy of 1 stores the double nearest to 1.3 (in doubles
    1.4 * 7 is 9.799999999999999 and the product by 10 is
    13.499999999999998), where the mean 1.35 brought to one decimal by
    the formula is 1.4. *)
Lemma incremental_mean_departures :
  let prev := {| count := 1; avg_duration := 10; avg_energy := 0;
                 last_done := None; completed_today := false |} in
  let store : gmap string Learned := {[ "meds-am"%string := prev ]} in
  let prev7 := {| count := 7; avg_duration := 10; avg_energy := 7 # 5;
                  last_done := None; completed_today := false |} in
  let store7 : gmap string Learned := {[ "meds-am"%string := prev7 ]} in
  (exists r,
      applyReview store "meds-am" (Some 0) None 1 !! "meds-am"%string = Some r
      /\ avg_duration r = 10
      /\ avg_duration r
         <> JS.Math_round (inject_Z (avg_duration prev * count prev + 0)
                           / inject_Z (count prev + 1)))
  /\ (exists r,
        applyReview store7 "meds-am" None (Some 1%Q) 1 !! "meds-am"%string = Some r
        /\ avg_energy r = JS.toDouble (13 # 10)
        /\ (inject_Z
              (JS.Math_round
                 ((avg_energy prev7 * inject_Z (count prev7) + 1)
                  / inject_Z (count prev7 + 1) * 10)) / 10 == 7 # 5)%Q
        /\ ~ (avg_energy r
              == inject_Z
                   (JS.Math_round
                      ((avg_energy prev7 * inject_Z (count prev7) + 1)
                       / inject_Z (count prev7 + 1) * 10)) / 10)%Q).
Proof.
  intros prev store prev7 store7. split.
  - eexists. split; [apply applyReview_lookup |].
    split; [reflexivity | vm_compute; discriminate].
  - eexists. split; [apply applyReview_lookup |].
    split; [vm_compute; reflexivity |].
    split; [vm_compute; reflexivity | vm_compute; discriminate].
Qed.

(** ** Effective duration and energy *)

(** C10: when the learned record of a task stores an average duration
    (an average energy) of 0, as a record created by a review without
    actuals does, [scoreTask] takes the task's own [duration_minutes]
    ([energy_required]) as the effective value; for a task with
    [duration_minutes >= 1] the effective duration is never 0. *)
Theorem scoreTask_effective_fallback (t : Task) (morningData : MorningData)
    (learnedData : gmap string Learned) (today : Today) (s : ScoredTask) :
  scoreTask t morningData learnedData today = Some s ->
  (forall l, learnedData !! id t = Some l -> avg_duration l = 0 ->
             effectiveDuration s = duration_minutes t)
  /\ (forall l, learnedData !! id t = Some l -> (avg_energy l == 0)%Q ->
                effectiveEnergy s = inject_Z (energy_required t))
  /\ (forall prior d, prior !! id t = None ->
                      learnedData = applyReview prior (id t) None None d ->
                      effectiveDuration s = duration_minutes t
                      /\ effectiveEnergy s = inject_Z (energy_required t))
  /\ (1 <= duration_minutes t -> effectiveDuration s <> 0).
Proof.
  intros Hs.
  assert (Hd : effectiveDuration s
               = match learnedData !! id t with
                 | Some l => JS.orZ (avg_duration l) (duration_minutes t)
                 | None => duration_minutes t
                 end).
  { unfold scoreTask in Hs.
    destruct (notAvailableToday t today); [discriminate |].
    destruct (isBlocked t learnedData); injection Hs as <-; reflexivity. }
  assert (He : effectiveEnergy s
               = match learnedData !! id t with
                 | Some l => JS.orQ (avg_energy l) (inject_Z (energy_required t))
                 | None => inject_Z (energy_required t)
                 end).
  { unfold scoreTask in Hs.
    destruct (notAvailableToday t today); [discriminate |].
    destruct (isBlocked t learnedData); injection Hs as <-; reflexivity. }
  assert (Hdur0 : forall l, learnedData !! id t = Some l -> avg_duration l = 0 ->
                            effectiveDuration s = duration_minutes t).
  { intros l Hl H0. rewrite Hd, Hl. unfold JS.orZ, JS.truthyZ. now rewrite H0. }
  assert (Heng0 : forall l, learnedData !! id t = Some l -> (avg_energy l == 0)%Q ->
                            effectiveEnergy s = inject_Z (energy_required t)).
  { intros l Hl H0. rewrite He, Hl. unfold JS.orQ.
    apply truthyQ_false in H0. now rewrite H0. }
  split; [exact Hdur0 |]. split; [exact Heng0 |]. split.
  - intros prior d Hnone ->.
    pose proof (applyReview_lookup prior (id t) None None d) as Hl.
    rewrite Hnone in Hl. split.
    + now apply (Hdur0 _ Hl).
    + now apply (Heng0 _ Hl).
  - intros Hpos. rewrite Hd. destruct (learnedData !! id t) as [l|]; [| lia].
    unfold JS.orZ, JS.truthyZ. destruct (Z.eqb_spec (avg_duration l) 0); cbn; lia.
Qed.

Lemma scoreTask_effective_fallback_witness :
  exists s,
    scoreTask emailTriage shortDay (applyReview ∅ "email-triage" None None 0) tenDaysLater
    = Some s
    /\ effectiveDuration s = 30
    /\ effectiveDuration s <> 0.
Proof.
  destruct (scoreTask emailTriage shortDay (applyReview ∅ "email-triage" None None 0)
              tenDaysLater) as [s|] eqn:Hs; [| vm_compute in Hs; discriminate].
  exists s. split; [reflexivity |].
  destruct (scoreTask_effective_fallback _ _ _ _ _ Hs) as (_ & _ & Hrev & Hne).
  split.
  - now destruct (Hrev ∅ 0 (lookup_empty _) eq_refl).
  - apply Hne. simpl. lia.
Defined.

(** * Further properties of the planner *)

(** ** Variant selection, all branches *)

Section PickVariantAll.

(** The fold of the best energy match keeps an element of the array and
    one whose gap is below every gap met. *)
Lemma best_match_fold (g : Variant -> Q) (l : list Variant) (b : Variant) :
  let r := fold_left (fun best v => if JS.ltb (g v) (g best) then v else best) l b in
  In r (b :: l) /\ (g r <= g b)%Q /\ forall w, In w l -> (g r <= g w)%Q.
Proof.
  revert b. induction l as [|x l IH]; intros b; cbn [fold_left].
  - split; [now left |]. split; [apply Qle_refl | intros w []].
  - destruct (JS.ltb (g x) (g b)) eqn:Hlt.
    + destruct (IH x) as (Hin & Hle & Hall). apply ltb_lt in Hlt.
      split; [now right |]. split; [lra |].
      intros w [<- | Hw]; [exact Hle | now apply Hall].
    + destruct (IH b) as (Hin & Hle & Hall). apply ltb_ge in Hlt.
      split; [destruct Hin as [Hin | Hin]; [now left | now right; right] |].
      split; [exact Hle |].
      intros w [<- | Hw]; [lra | now apply Hall].
Qed.

Lemma pickVariant_normal_unfold t e s tr :
  pickVariant t e s tr false =
    match variants t with
    | [] => None
    | _ :: _ =>
        match List.filter (fitsIn tr) (JS.sort byDuration (variants t)) with
        | [] => head (JS.sort byDuration (variants t))
        | f :: rest =>
            if JS.ltb (blendedEnergy e s) (7 # 2) then Some f
            else Some (fold_left
                         (fun best v =>
                            if JS.ltb (energyGap (blendedEnergy e s) v)
                                      (energyGap (blendedEnergy e s) best)
                            then v else best)
                         (f :: rest) f)
        end
    end.
Proof.
  unfold pickVariant, blendedEnergy. destruct (variants t); [reflexivity |].
  cbv zeta. now destruct (List.filter _ _).
Qed.

Lemma head_sort_in (l : list Variant) v :
  head (JS.sort byDuration l) = Some v -> In v l.
Proof.
  destruct (JS.sort byDuration l) as [|x r] eqn:Hs; [discriminate |].
  intros [= ->]. apply (In_sort byDuration). rewrite Hs. now left.
Qed.

Lemma pickVariant_in t e s tr tp v :
  pickVariant t e s tr tp = Some v -> In v (variants t).
Proof.
  destruct tp.
  - destruct (variants t) as [|v0 vs] eqn:Hv.
    + unfold pickVariant. now rewrite Hv.
    + rewrite pickVariant_pressure_head by congruence. rewrite Hv. apply head_sort_in.
  - rewrite pickVariant_normal_unfold.
    destruct (variants t) as [|v0 vs] eqn:Hv; [discriminate |].
    destruct (List.filter (fitsIn tr) (JS.sort byDuration (v0 :: vs))) as [|f rest] eqn:Hf.
    + apply head_sort_in.
    + assert (Hsub : forall w, In w (f :: rest) -> In w (v0 :: vs)).
      { intros w Hw. rewrite <- Hf in Hw. apply filter_In in Hw.
        now apply (In_sort byDuration). }
      destruct (JS.ltb (blendedEnergy e s) (7 # 2)).
      * intros [= <-]. apply Hsub. now left.
      * intros [= <-]. apply Hsub.
        destruct (best_match_fold (energyGap (blendedEnergy e s)) (f :: rest) f)
          as ([Hin | Hin] & _); [left; exact Hin | exact Hin].
Qed.

Lemma pickVariant_pressure_least t e s tr :
  variants t <> [] ->
  exists v, pickVariant t e s tr true = Some v
            /\ forall w, In w (variants t) -> v_duration_minutes v <= v_duration_minutes w.
Proof.
  intros Hne. rewrite (pickVariant_pressure_head t e s tr Hne).
  destruct (JS.sort byDuration (variants t)) as [|v rest] eqn:Hs.
  { destruct (variants t); [congruence | now apply sort_nonempty in Hs]. }
  exists v. split; [reflexivity |]. intros w Hw.
  exact (sort_head_least byDuration v_duration_minutes (fun a b => eq_refl) _ _ _ Hs w Hw).
Qed.

End PickVariantAll.

(** X1: [pickVariant] returns [null] exactly when the task has no
    variants; whatever the pressure flag, a returned variant is one of the
    task's own. *)
Theorem pickVariant_null_iff (t : Task) (e : Z) (s : string) (timeRemaining : Q)
    (timePressure : bool) :
  (pickVariant t e s timeRemaining timePressure = None <-> variants t = [])
  /\ (forall v, pickVariant t e s timeRemaining timePressure = Some v -> In v (variants t)).
Proof.
  split; [| intros v; apply pickVariant_in].
  split.
  - intros Hnone. destruct (variants t) as [|v0 vs] eqn:Hv; [reflexivity | exfalso].
    assert (Hne : variants t <> []) by congruence.
    destruct timePressure.
    + rewrite (pickVariant_pressure_head t e s timeRemaining Hne) in Hnone.
      destruct (JS.sort byDuration (variants t)) eqn:Hs; [| discriminate].
      rewrite Hv in Hs. now apply sort_nonempty in Hs.
    + rewrite pickVariant_normal_unfold, Hv in Hnone.
      destruct (List.filter _ _); [| destruct (JS.ltb _ _); discriminate].
      destruct (JS.sort byDuration (v0 :: vs)) eqn:Hs; [| discriminate].
      now apply sort_nonempty in Hs.
  - intros Hv. unfold pickVariant. now rewrite Hv.
Qed.

Lemma pickVariant_null_iff_witness :
  pickVariant emailTriage 6 "ok" 30 false = None
  /\ exists v, pickVariant breakfast 6 "ok" 30 false = Some v /\ In v (variants breakfast).
Proof.
  split.
  - now apply (pickVariant_null_iff emailTriage 6 "ok" 30 false).
  - destruct (pickVariant breakfast 6 "ok" 30 false) as [v|] eqn:Hv.
    + exists v. split; [reflexivity |].
      now apply (pickVariant_null_iff breakfast 6 "ok" 30 false).
    + now apply (pickVariant_null_iff breakfast 6 "ok" 30 false) in Hv.
Defined.

(** X2: whatever the pressure flag, when some variant of the task fits the
    time remaining the variant returned fits it too. *)
Theorem pickVariant_fits_when_possible (t : Task) (e : Z) (s : string)
    (timeRemaining : Q) (timePressure : bool) (w : Variant) :
  In w (variants t) ->
  (inject_Z (v_duration_minutes w) <= timeRemaining)%Q ->
  exists v, pickVariant t e s timeRemaining timePressure = Some v
            /\ (inject_Z (v_duration_minutes v) <= timeRemaining)%Q.
Proof.
  intros Hw Hfit.
  assert (Hne : variants t <> []) by (intros Hnil; rewrite Hnil in Hw; destruct Hw).
  destruct timePressure.
  - destruct (pickVariant_pressure_least t e s timeRemaining Hne) as (v & Hv & Hleast).
    exists v. split; [exact Hv |].
    specialize (Hleast w Hw). rewrite Zle_Qle in Hleast. lra.
  - rewrite pickVariant_normal_unfold.
    destruct (variants t) as [|v0 vs] eqn:Hv; [congruence |].
    assert (Hwf : In w (List.filter (fitsIn timeRemaining) (JS.sort byDuration (v0 :: vs)))).
    { apply filter_In. split; [now apply (In_sort byDuration) | now apply leb_le]. }
    destruct (List.filter (fitsIn timeRemaining) (JS.sort byDuration (v0 :: vs)))
      as [|f rest] eqn:Hf; [destruct Hwf |].
    assert (Hall : forall x, In x (f :: rest) ->
                             (inject_Z (v_duration_minutes x) <= timeRemaining)%Q).
    { intros x Hx. rewrite <- Hf in Hx. apply filter_In in Hx. now apply leb_le. }
    destruct (JS.ltb (blendedEnergy e s) (7 # 2)).
    + exists f. split; [reflexivity | apply Hall; now left].
    + eexists. split; [reflexivity |]. apply Hall.
      destruct (best_match_fold (energyGap (blendedEnergy e s)) (f :: rest) f)
        as ([Hin | Hin] & _); [left; exact Hin | exact Hin].
Qed.

Lemma pickVariant_fits_when_possible_witness :
  exists v, pickVariant breakfast 6 "ok" 20 false = Some v
            /\ (inject_Z (v_duration_minutes v) <= 20)%Q.
Proof.
  apply (pickVariant_fits_when_possible breakfast 6 "ok" 20 false
           {| v_name := "Toast & eggs"; v_duration_minutes := 15; v_energy_required := 2 |}).
  - right; right; now left.
  - vm_compute. discriminate.
Defined.

(** X3: without pressure and with a blended energy of 3.5 or more, when
    some variant fits the time remaining the variant returned is one of
    the task's variants that fit, and among those that fit its energy is
    closest to the blended energy. *)
Theorem pickVariant_best_energy_match (t : Task) (e : Z) (s : string)
    (timeRemaining : Q) (w : Variant) :
  (7 # 2 <= blendedEnergy e s)%Q ->
  In w (variants t) ->
  (inject_Z (v_duration_minutes w) <= timeRemaining)%Q ->
  exists v, pickVariant t e s timeRemaining false = Some v
            /\ In v (variants t)
            /\ (inject_Z (v_duration_minutes v) <= timeRemaining)%Q
            /\ forall w', In w' (variants t) ->
                          (inject_Z (v_duration_minutes w') <= timeRemaining)%Q ->
                          (Qabs (inject_Z (v_energy_required v) - blendedEnergy e s)
                           <= Qabs (inject_Z (v_energy_required w') - blendedEnergy e s))%Q.
Proof.
  intros Henergy Hw Hfit. rewrite pickVariant_normal_unfold.
  destruct (variants t) as [|v0 vs] eqn:Hv; [destruct Hw |].
  assert (Hmem : forall x, In x (List.filter (fitsIn timeRemaining)
                                   (JS.sort byDuration (v0 :: vs)))
                           <-> In x (v0 :: vs)
                               /\ (inject_Z (v_duration_minutes x) <= timeRemaining)%Q).
  { intros x. rewrite filter_In, (In_sort byDuration). unfold fitsIn. now rewrite leb_le. }
  destruct (List.filter (fitsIn timeRemaining) (JS.sort byDuration (v0 :: vs)))
    as [|f rest] eqn:Hf.
  { exfalso. now apply (proj2 (Hmem w)). }
  apply ltb_ge in Henergy. rewrite Henergy.
  eexists. split; [reflexivity |].
  destruct (best_match_fold (energyGap (blendedEnergy e s)) (f :: rest) f)
    as (Hin & _ & Hall).
  assert (Hin' : In (fold_left
                       (fun best v =>
                          if JS.ltb (energyGap (blendedEnergy e s) v)
                                    (energyGap (blendedEnergy e s) best)
                          then v else best) (f :: rest) f) (f :: rest)).
  { destruct Hin as [Hin | Hin]; [left; exact Hin | exact Hin]. }
  apply Hmem in Hin'. destruct Hin' as [Hvar Hvfit].
  split; [exact Hvar |]. split; [exact Hvfit |].
  intros w' Hw' Hfit'. apply Hall. now apply Hmem.
Qed.

Lemma pickVariant_best_energy_match_witness :
  exists v, pickVariant breakfast 6 "ok" 40 false = Some v
            /\ v_name v = "Full cooked breakfast"%string.
Proof.
  destruct (pickVariant_best_energy_match breakfast 6 "ok" 40
              {| v_name := "Toast & eggs"; v_duration_minutes := 15; v_energy_required := 2 |})
    as (v & Hv & _).
  - vm_compute. discriminate.
  - right; right; now left.
  - vm_compute. discriminate.
  - exists v. split; [exact Hv |]. vm_compute in Hv. now injection Hv as <-.
Defined.

(** X4: with a blended energy below 3.5 the pressure flag makes no
    difference: the shortest variant that fits is returned, or the
    shortest of all when none fits. *)
Theorem pickVariant_low_energy_is_pressure (t : Task) (e : Z) (s : string)
    (timeRemaining : Q) :
  (blendedEnergy e s < 7 # 2)%Q ->
  pickVariant t e s timeRemaining false = pickVariant t e s timeRemaining true.
Proof.
  intros Hlow. rewrite pickVariant_normal_unfold. unfold pickVariant.
  destruct (variants t) as [|v0 vs]; [reflexivity |].
  apply ltb_lt in Hlow. rewrite Hlow.
  now destruct (List.filter _ _).
Qed.

Lemma pickVariant_low_energy_is_pressure_witness :
  pickVariant breakfast 2 "terrible" 40 false = pickVariant breakfast 2 "terrible" 40 true.
Proof.
  apply pickVariant_low_energy_is_pressure. vm_compute. reflexivity.
Defined.

(** ** The components of a score *)

Section ScoreComponents.

Lemma SLEEP_SCORES_values sleep :
  let s := default 5 (SLEEP_SCORES sleep) in
  s = 1 \/ s = 3 \/ s = 5 \/ s = 7 \/ s = 9.
Proof.
  unfold SLEEP_SCORES.
  repeat (match goal with
          | |- context [String.eqb ?a ?b] => destruct (String.eqb a b)
          end; cbn; try tauto).
Qed.

Lemma FREQ_DAYS_positive frequency expected :
  FREQ_DAYS frequency = Some expected -> (0 < expected)%Q.
Proof.
  unfold FREQ_DAYS.
  repeat (match goal with
          | |- context [String.eqb ?a ?b] => destruct (String.eqb a b)
          end; try (intros [= <-]; reflexivity)).
Qed.

Lemma Math_max_0_bounds x : (x <= 20)%Q -> (0 <= JS.Math_max 0 x <= 20)%Q.
Proof.
  intros Hx. unfold JS.Math_max. destruct (JS.ltb 0 x) eqn:Hlt.
  - apply ltb_lt in Hlt. lra.
  - lra.
Qed.

Lemma overduePtsOf_bounds t learned today :
  (0 <= overduePtsOf t learned today <= 15)%Q.
Proof.
  unfold overduePtsOf. destruct learned as [l|]; [| lra].
  destruct (last_done l) as [ld|]; [| lra].
  destruct (FREQ_DAYS (frequency t)) as [expected|] eqn:Hf; [| lra].
  apply FREQ_DAYS_positive in Hf.
  set (daysSince := (inject_Z (getTime today - newDate ld) / inject_Z MS_PER_DAY)%Q).
  destruct (JS.ltb expected daysSince) eqn:Hlt; [| lra].
  apply ltb_lt in Hlt. unfold JS.Math_min.
  destruct (JS.ltb _ 15) eqn:Hm; [| lra].
  apply ltb_lt in Hm. split; [| lra].
  apply Qlt_le_weak. apply Qmult_lt_0_compat; [| reflexivity].
  apply Qlt_shift_div_l; [exact Hf | lra].
Qed.

Lemma energyFit_bounds (sleepScore : Z) (diff : Q) :
  sleepScore = 1 \/ sleepScore = 3 \/ sleepScore = 5 \/ sleepScore = 7 \/ sleepScore = 9 ->
  (0 <= diff)%Q ->
  (0 <= JS.Math_max 0 (20 - diff * (5 # 2)) * (1 + inject_Z (5 - sleepScore) * (1 # 10))
   <= 28)%Q.
Proof.
  intros Hs Hd.
  destruct (Math_max_0_bounds (20 - diff * (5 # 2))) as [Hlo Hhi]; [lra |].
  set (m := JS.Math_max 0 (20 - diff * (5 # 2))) in *.
  destruct Hs as [-> | [-> | [-> | [-> | ->]]]];
    match goal with
    | |- context [inject_Z ?z] =>
        let q := eval vm_compute in (inject_Z z) in change (inject_Z z) with q
    end; lra.
Qed.

Lemma urgencyOf_bounds t today : 0 <= urgencyOf t today <= 30.
Proof.
  unfold urgencyOf. destruct (deadline t); [| lia].
  repeat (match goal with
          | |- context [Z.leb ?a ?b] => destruct (Z.leb a b)
          end; try lia).
Qed.

Lemma daysLeft_le (a k : Z) :
  JS.Math_ceil (inject_Z a / inject_Z MS_PER_DAY) <= k <-> a <= k * MS_PER_DAY.
Proof.
  unfold JS.Math_ceil, MS_PER_DAY. change (inject_Z 86400000) with 86400000%Q.
  set (x := (inject_Z a / 86400000)%Q).
  assert (Hax : (inject_Z a == x * 86400000)%Q) by (subst x; field).
  rewrite (Zle_Qle a), inject_Z_mult. change (inject_Z 86400000) with 86400000%Q.
  split.
  - intros Hc. pose proof (Qle_ceiling x) as Hx. rewrite Zle_Qle in Hc. lra.
  - intros Ha. rewrite <- (Qceiling_Z k). apply Qceiling_resp_le. lra.
Qed.

Lemma urgencyOf_antitone t1 t2 today d1 d2 :
  deadline t1 = Some d1 -> deadline t2 = Some d2 -> d1 <= d2 ->
  urgencyOf t2 today <= urgencyOf t1 today.
Proof.
  intros H1 H2 Hle. unfold urgencyOf. rewrite H1, H2.
  set (n2 := JS.Math_ceil _). set (n1 := JS.Math_ceil _).
  assert (Hn : n1 <= n2).
  { subst n1 n2. unfold JS.Math_ceil. apply Qceiling_resp_le.
    unfold Qdiv. apply Qmult_le_compat_r; [| discriminate].
    rewrite <- Zle_Qle. unfold newDate, MS_PER_DAY. lia. }
  clearbody n1 n2.
  repeat (match goal with
          | |- context [Z.leb ?a ?b] => destruct (Z.leb_spec a b)
          end; try lia).
Qed.

End ScoreComponents.

(** X5: the urgency of a scored task lies between 0 and 30; it is 0
    without a deadline and at least 1 with one; it is 30 exactly when the
    deadline's instant (midnight UTC of its date) is not after [today]
    (local midnight), and 28 exactly when it is after it by a day at most,
    as for a deadline dated today seen east of UTC; a later deadline never
    gives a larger urgency. *)
Theorem scoreTask_urgency (t : Task) (morningData : MorningData)
    (learnedData : gmap string Learned) (today : Today) (s : ScoredTask) :
  scoreTask t morningData learnedData today = Some s ->
  blocked s = false ->
  exists u,
    urgency s = Some u
    /\ 0 <= u <= 30
    /\ (deadline t = None -> u = 0)
    /\ (forall d, deadline t = Some d ->
                  1 <= u
                  /\ (u = 30 <-> newDate d <= getTime today)
                  /\ (u = 28 <-> getTime today < newDate d <= getTime today + MS_PER_DAY))
    /\ (forall t' s' u' d d',
          scoreTask t' morningData learnedData today = Some s' ->
          urgency s' = Some u' ->
          deadline t = Some d -> deadline t' = Some d' -> d <= d' -> u' <= u).
Proof.
  intros Hs Hb.
  assert (Hu : forall t0 s0, scoreTask t0 morningData learnedData today = Some s0 ->
                             forall u0, urgency s0 = Some u0 -> u0 = urgencyOf t0 today).
  { intros t0 s0 H0. unfold scoreTask in H0.
    destruct (notAvailableToday t0 today); [discriminate |].
    destruct (isBlocked t0 learnedData); injection H0 as <-; cbn; congruence. }
  assert (Hsome : urgency s = Some (urgencyOf t today)).
  { unfold scoreTask in Hs.
    destruct (notAvailableToday t today); [discriminate |].
    destruct (isBlocked t learnedData); injection Hs as <-; [discriminate | reflexivity]. }
  exists (urgencyOf t today). split; [exact Hsome |].
  split; [apply urgencyOf_bounds |]. split; [| split].
  - intros Hd. unfold urgencyOf. now rewrite Hd.
  - intros d Hd. unfold urgencyOf. rewrite Hd.
    pose proof (daysLeft_le (newDate d - getTime today) 0) as H0.
    pose proof (daysLeft_le (newDate d - getTime today) 1) as H1.
    set (n := JS.Math_ceil _) in *. unfold MS_PER_DAY in *.
    repeat (match goal with
            | |- context [Z.leb ?a ?b] => destruct (Z.leb_spec a b)
            end; try lia).
  - intros t' s' u' d d' Hs' Hu' Hd Hd' Hle.
    rewrite (Hu t' s' Hs' u' Hu'). now apply (urgencyOf_antitone t t' today d d').
Qed.

Lemma scoreTask_urgency_witness :
  exists s,
    scoreTask dueTask shortDay ∅ eastOfUtcMidnight = Some s
    /\ blocked s = false /\ urgency s = Some 28.
Proof.
  destruct (scoreTask dueTask shortDay ∅ eastOfUtcMidnight) as [s|] eqn:Hs;
    [| vm_compute in Hs; discriminate].
  assert (Hb : blocked s = false) by (vm_compute in Hs; now injection Hs as <-).
  destruct (scoreTask_urgency _ _ _ _ _ Hs Hb) as (u & Hu & _ & _ & Hdue & _).
  exists s. split; [reflexivity |]. split; [exact Hb |].
  destruct (Hdue 20000 eq_refl) as (_ & _ & H28).
  rewrite Hu. f_equal. apply H28. vm_compute. split; [reflexivity | discriminate].
Defined.

(** X6: the score of a scored task lies between 0 and 98: a blocked
    record scores 0, and otherwise the energy fit lies between 0 and 28,
    the overdue bonus between 0 and 15, the criticality is 25, 15 or 0 and
    the urgency at most 30. *)
Theorem scoreTask_score_bounds (t : Task) (morningData : MorningData)
    (learnedData : gmap string Learned) (today : Today) (s : ScoredTask) :
  scoreTask t morningData learnedData today = Some s ->
  (0 <= score s <= 98)%Q
  /\ (blocked s = true -> score s = 0%Q)
  /\ (forall f, energyFit s = Some f -> (0 <= f <= 28)%Q)
  /\ (forall p, overduePts s = Some p -> (0 <= p <= 15)%Q)
  /\ (forall c, criticality s = Some c ->
                c = if mandatory t then 25 else if critical t then 15 else 0)
  /\ (forall u, urgency s = Some u -> 0 <= u <= 30).
Proof.
  intros Hs. unfold scoreTask in Hs.
  destruct (notAvailableToday t today); [discriminate |].
  pose proof (urgencyOf_bounds t today) as [Hu0 Hu30].
  pose proof (overduePtsOf_bounds t (learnedData !! id t) today) as Ho.
  pose proof (SLEEP_SCORES_values (sleep morningData)) as Hsl. cbv zeta in Hsl.
  match type of Hs with
  | context [(JS.Math_max 0 (20 - Qabs ?d * ?k) * ?m)%Q] =>
      pose proof (energyFit_bounds _ (Qabs d) Hsl (Qabs_nonneg d)) as He;
      set (ef := (JS.Math_max 0 (20 - Qabs d * k) * m)%Q) in *
  end.
  set (ov := overduePtsOf t (learnedData !! id t) today) in *.
  rewrite Zle_Qle in Hu0, Hu30.
  change (inject_Z 0) with 0%Q in Hu0. change (inject_Z 30) with 30%Q in Hu30.
  pose proof (urgencyOf_bounds t today) as Hub.
  destruct (isBlocked t learnedData); injection Hs as <-;
    cbn [score blocked energyFit overduePts criticality urgency].
  - split; [lra |]. split; [reflexivity |]. repeat split; discriminate.
  - split.
    + destruct (mandatory t); [| destruct (critical t)].
      * change (inject_Z 25) with 25%Q. lra.
      * change (inject_Z 15) with 15%Q. lra.
      * change (inject_Z 0) with 0%Q. lra.
    + split; [discriminate |]. split; [now intros f [= <-] |].
      split; [now intros p [= <-] |]. split; [now intros c [= <-] |].
      now intros u [= <-].
Qed.

Lemma scoreTask_score_bounds_witness :
  exists s, scoreTask emailTriage shortDay emailLearned tenDaysLater = Some s
            /\ (0 <= score s <= 98)%Q.
Proof.
  destruct (scoreTask emailTriage shortDay emailLearned tenDaysLater) as [s|] eqn:Hs;
    [| vm_compute in Hs; discriminate].
  exists s. split; [reflexivity |].
  now destruct (scoreTask_score_bounds _ _ _ _ _ Hs).
Defined.

(** ** Blocked tasks and the normal tier *)

(** X7: the blocked list holds exactly the tasks of the input that are
    available today and have a blocker not completed today; none of them
    has an entry in the plan. *)
Theorem blocked_list_spec (tasks : list Task) (morningData : MorningData)
    (learnedData : gmap string Learned) (today : Today) (t : Task) :
  let r := buildDayPlan tasks morningData learnedData today in
  (In t (blockedTasks r) <->
   In t tasks /\ notAvailableToday t today = false
   /\ exists b, In b (blockers t) /\ completedToday learnedData b = false)
  /\ (In t (blockedTasks r) -> forall i, In i (plan r) -> task (scored i) <> t).
Proof.
  intros r.
  assert (Hblocked : In t (blockedTasks r) <->
                     In t tasks /\ notAvailableToday t today = false
                     /\ isBlocked t learnedData = true).
  { subst r. unfold buildDayPlan. cbn [blockedTasks]. rewrite filter_In.
    unfold scoreTask.
    destruct (notAvailableToday t today); [intuition discriminate |].
    destruct (isBlocked t learnedData); cbn; intuition discriminate. }
  assert (Hex : isBlocked t learnedData = true <->
                exists b, In b (blockers t) /\ completedToday learnedData b = false).
  { unfold isBlocked. rewrite existsb_exists.
    split; intros (b & Hb & Hc); exists b; (split; [exact Hb |]);
      now apply negb_true_iff. }
  split; [now rewrite Hblocked, Hex |].
  intros Hin i Hi Heq. apply Hblocked in Hin. destruct Hin as (_ & _ & Hbl).
  destruct (plan_item_origin _ _ _ _ _ Hi) as (t' & _ & Hs & Hnb).
  destruct (scoreTask_Some _ _ _ _ _ Hs) as (Ht' & Hb' & _).
  rewrite Heq in Ht'. subst t'. congruence.
Qed.

Lemma blocked_list_spec_witness :
  In followUp (blockedTasks (buildDayPlan [followUp; emailTriage] shortDay ∅ aMonday)).
Proof.
  apply (blocked_list_spec [followUp; emailTriage] shortDay ∅ aMonday followUp).
  split; [now left |]. split; [reflexivity |].
  exists "q1-report"%string. split; [now left | reflexivity].
Defined.

(** X9: normal-tier entries get no grace: when the plan holds an entry of
    a task that is neither mandatory nor critical, the sum of
    [scheduledDuration] over the plan is at most [availableMinutes]. *)
Theorem normal_entry_within_budget (tasks : list Task) (morningData : MorningData)
    (learnedData : gmap string Learned) (today : Today) (i : PlanItem) :
  let r := buildDayPlan tasks morningData learnedData today in
  In i (plan r) ->
  mandatory (task (scored i)) = false ->
  critical (task (scored i)) = false ->
  (inject_Z (totalScheduled (plan r)) <= availableMinutes r)%Q.
Proof.
  intros r Hi Hm Hc. subst r.
  destruct (plan_shape tasks morningData learnedData today)
    as (m & c & n & Hplan & _ & Hmall & _ & Hcall & _ & _ & _ & Hnb).
  rewrite Hplan in Hi |- *. rewrite !in_app_iff in Hi.
  rewrite List.Forall_forall in Hmall, Hcall.
  destruct Hi as [Hi | [Hi | Hi]].
  - apply Hmall in Hi. destruct Hi as [_ Hi]. apply In_tier in Hi.
    destruct Hi as [_ Hk]. unfold isMandatory in Hk. congruence.
  - apply Hcall in Hi. destruct Hi as [_ Hi]. apply In_tier in Hi.
    destruct Hi as [_ Hk]. unfold isCritical in Hk. rewrite Hm, Hc in Hk. discriminate.
  - destruct Hnb as [-> | Hnb]; [destruct Hi | exact Hnb].
Qed.

Lemma normal_entry_within_budget_witness :
  let r := buildDayPlan [emailTriage; longMandatory] workDay ∅ aMonday in
  exists i, In i (plan r) /\ task (scored i) = emailTriage
            /\ (inject_Z (totalScheduled (plan r)) <= availableMinutes r)%Q.
Proof.
  intros r.
  assert (Hlen : exists i, nth_error (plan r) 1 = Some i /\ task (scored i) = emailTriage).
  { vm_compute. eexists. split; reflexivity. }
  destruct Hlen as (i & Hi & Ht). exists i.
  assert (Hin : In i (plan r)) by (eapply nth_error_In; exact Hi).
  split; [exact Hin |]. split; [exact Ht |].
  apply (normal_entry_within_budget [emailTriage; longMandatory] workDay ∅ aMonday i Hin);
    now rewrite Ht.
Defined.

(** ** The low-energy multiplier *)

(** X12: from a morning energy of 1 upwards, a higher energy never gives a
    larger multiplier nor more points for the same task; an energy of 0 or
    below gives no bonus at all. *)
Theorem lower_energy_never_pays_less (t : Task) (e1 e2 : Z) :
  1 <= e1 -> e1 <= e2 ->
  (getLowEnergyMultiplier e2 <= getLowEnergyMultiplier e1)%Q
  /\ pts (calcTaskPoints t e2) <= pts (calcTaskPoints t e1)
  /\ (forall e0, e0 <= 0 -> getLowEnergyMultiplier e0 = 1%Q
                            /\ pts (calcTaskPoints t e0) = base (calcTaskPoints t e0)).
Proof.
  intros H1 H12.
  assert (Hmul : (getLowEnergyMultiplier e2 <= getLowEnergyMultiplier e1)%Q).
  { destruct (Z_le_gt_dec 5 e2) as [H5 | H5].
    - unfold getLowEnergyMultiplier at 1. rewrite (LOW_ENERGY_SCALE_high _ H5).
      apply getLowEnergyMultiplier_ge_1.
    - assert (He : (e1 = 1 \/ e1 = 2 \/ e1 = 3 \/ e1 = 4)
                   /\ (e2 = 1 \/ e2 = 2 \/ e2 = 3 \/ e2 = 4)) by lia.
      destruct He as [[-> | [-> | [-> | ->]]] [-> | [-> | [-> | ->]]]];
        try lia; vm_compute; discriminate. }
  split; [exact Hmul |]. split.
  - rewrite !pts_unfold.
    change (multiplier (calcTaskPoints t e1)) with (getLowEnergyMultiplier e1).
    change (multiplier (calcTaskPoints t e2)) with (getLowEnergyMultiplier e2).
    change (base (calcTaskPoints t e2)) with (base (calcTaskPoints t e1)).
    pose proof (calcTaskPoints_base_ge_1 t e1) as Hb. rewrite Zle_Qle in Hb.
    change (inject_Z 1) with 1%Q in Hb.
    set (b := base (calcTaskPoints t e1)) in *.
    pose proof (getLowEnergyMultiplier_ge_1 e1) as Hm1.
    pose proof (getLowEnergyMultiplier_ge_1 e2) as Hm2.
    assert (Hround : b = JS.Math_round (inject_Z b * 1)).
    { unfold JS.Math_round.
      assert (Hlo : b <= Qfloor (inject_Z b * 1 + (1 # 2))).
      { rewrite <- (Qfloor_Z b) at 1. apply Qfloor_resp_le. lra. }
      assert (Hhi : Qfloor (inject_Z b * 1 + (1 # 2)) <= b).
      { apply Z.lt_succ_r. rewrite Zlt_Qlt.
        pose proof (Qfloor_le (inject_Z b * 1 + (1 # 2))) as Hf.
        unfold Z.succ. rewrite inject_Z_plus. change (inject_Z 1) with 1%Q. lra. }
      lia. }
    destruct (JS.ltb 1 (getLowEnergyMultiplier e2)) eqn:Hb2;
      destruct (JS.ltb 1 (getLowEnergyMultiplier e1)) eqn:Hb1.
    + apply Math_round_mono. nra.
    + apply ltb_lt in Hb2. apply ltb_ge in Hb1. lra.
    + rewrite Hround at 1. apply Math_round_mono. nra.
    + lia.
  - intros e0 He0.
    assert (Hnone : LOW_ENERGY_SCALE e0 = None) by (destruct e0; [reflexivity | lia | reflexivity]).
    assert (Hone : getLowEnergyMultiplier e0 = 1%Q)
      by (unfold getLowEnergyMultiplier; now rewrite Hnone).
    split; [exact Hone |]. rewrite pts_unfold.
    change (multiplier (calcTaskPoints t e0)) with (getLowEnergyMultiplier e0).
    now rewrite Hone.
Qed.

Lemma lower_energy_never_pays_less_witness :
  1 <= 2 /\ 2 <= 4
  /\ pts (calcTaskPoints halfHourTask 4) <= pts (calcTaskPoints halfHourTask 2).
Proof.
  split; [lia |]. split; [lia |].
  destruct (lower_energy_never_pays_less halfHourTask 2 4) as (_ & Hpts & _); [lia | lia |].
  exact Hpts.
Defined.

(** ** The layout of the plan *)

Section PassLayout.
Variable morningData : MorningData.
Variable avail : Q.

Lemma admits_nil P l st : admits P l st st [].
Proof.
  unfold admits. split; [now rewrite app_nil_r |].
  split; [apply sublist_nil_l | constructor].
Qed.

Lemma admits_skip P l x st st' extra :
  admits P l st st' extra -> admits P (x :: l) st st' extra.
Proof.
  intros (Hp & Hs & Hall). split; [exact Hp |]. split; [| exact Hall].
  now apply sublist_cons.
Qed.

Lemma admits_take P l x p u p' it st' extra :
  P it -> scored it = x -> p' = p ++ [it] ->
  admits P l (p', u + scheduledDuration it) st' extra ->
  admits P (x :: l) (p, u) st' (it :: extra).
Proof.
  intros HP Hx -> (Hp & Hs & Hall). cbn [fst] in *. split.
  - rewrite Hp, <- app_assoc. reflexivity.
  - split; [| now constructor]. cbn [map]. rewrite Hx. now apply sublist_skip.
Qed.

Lemma mandatoryStep_entry p u x :
  exists it,
    scored it = x /\ (pinned it = true /\ wellFormedEntry morningData it)
    /\ mandatoryStep morningData avail (p, u) x = (p ++ [it], u + scheduledDuration it).
Proof.
  unfold mandatoryStep. cbv zeta.
  refine (ex_intro _ {| scored := x; scheduledDuration := _; displayName := _;
                        variant := _; pinned := _; compressed := _ |} _).
  unfold wellFormedEntry.
  cbn [scored pinned scheduledDuration variant displayName compressed].
  split; [| split].
  3: reflexivity.
  - reflexivity.
  - split; [reflexivity |]. split; [eauto |]. split; [reflexivity |].
    split; [reflexivity | discriminate].
Qed.

Lemma criticalStep_entry timePressure p u x :
  (exists it,
      scored it = x /\ (pinned it = false /\ wellFormedEntry morningData it)
      /\ criticalStep morningData avail timePressure (p, u) x
         = (p ++ [it], u + scheduledDuration it))
  \/ criticalStep morningData avail timePressure (p, u) x = (p, u).
Proof.
  unfold criticalStep.
  match goal with
  | |- context [JS.leb ?a ?b] => destruct (JS.leb a b)
  end; [left | now right].
  refine (ex_intro _ {| scored := x; scheduledDuration := _; displayName := _;
                        variant := _; pinned := _; compressed := _ |} _).
  unfold wellFormedEntry.
  cbn [scored pinned scheduledDuration variant displayName compressed].
  split; [| split].
  3: reflexivity.
  - reflexivity.
  - split; [reflexivity |]. split; [eauto |]. split; [reflexivity |].
    split; [reflexivity |]. intros Hc. split; [try reflexivity; discriminate |].
    apply andb_true_iff in Hc. destruct Hc as [_ Hc].
    now destruct (pickVariant _ _ _ _ _).
Qed.

Lemma normalPass_entry p u x l :
  (exists it,
      scored it = x /\ (pinned it = false /\ wellFormedEntry morningData it)
      /\ normalPass morningData avail (x :: l) (p, u)
         = normalPass morningData avail l (p ++ [it], u + scheduledDuration it))
  \/ normalPass morningData avail (x :: l) (p, u) = normalPass morningData avail l (p, u)
  \/ normalPass morningData avail (x :: l) (p, u) = (p, u).
Proof.
  cbn [normalPass].
  destruct (JS.leb avail (inject_Z u)); [now right; right |].
  match goal with
  | |- context [JS.leb (inject_Z ?a) avail] => destruct (JS.leb (inject_Z a) avail)
  end; [left | now right; left].
  refine (ex_intro _ {| scored := x; scheduledDuration := _; displayName := _;
                        variant := _; pinned := _; compressed := _ |} _).
  unfold wellFormedEntry.
  cbn [scored pinned scheduledDuration variant displayName compressed].
  split; [| split].
  3: reflexivity.
  - reflexivity.
  - split; [reflexivity |]. split; [eauto |]. split; [reflexivity |].
    split; [reflexivity |]. intros Hc. split; [try reflexivity; discriminate |].
    apply andb_true_iff in Hc. destruct Hc as [_ Hc].
    now destruct (pickVariant _ _ _ _ _).
Qed.

(** The mandatory loop takes the whole tier, in order. *)
Lemma mandatory_layout l st :
  exists extra,
    admits (fun i => pinned i = true /\ wellFormedEntry morningData i) l st
      (fold_left (mandatoryStep morningData avail) l st) extra
    /\ map scored extra = l.
Proof.
  revert st. induction l as [|x l IH]; intros [p u].
  - exists []. split; [apply admits_nil | reflexivity].
  - cbn [fold_left].
    destruct (mandatoryStep_entry p u x) as (it & Hsc & HP & ->).
    destruct (IH (p ++ [it], u + scheduledDuration it)) as (extra & Hadm & Hmap).
    exists (it :: extra). split.
    + now apply (admits_take _ l x p u (p ++ [it]) it).
    + cbn [map]. now rewrite Hsc, Hmap.
Qed.

Lemma critical_layout timePressure l st :
  exists extra,
    admits (fun i => pinned i = false /\ wellFormedEntry morningData i) l st
      (fold_left (criticalStep morningData avail timePressure) l st) extra.
Proof.
  revert st. induction l as [|x l IH]; intros [p u].
  - exists []. apply admits_nil.
  - cbn [fold_left].
    destruct (criticalStep_entry timePressure p u x) as [(it & Hsc & HP & ->) | ->].
    + destruct (IH (p ++ [it], u + scheduledDuration it)) as (extra & Hadm).
      exists (it :: extra). now apply (admits_take _ l x p u (p ++ [it]) it).
    + destruct (IH (p, u)) as (extra & Hadm).
      exists extra. now apply admits_skip.
Qed.

Lemma normal_layout l st :
  exists extra,
    admits (fun i => pinned i = false /\ wellFormedEntry morningData i) l st
      (normalPass morningData avail l st) extra.
Proof.
  revert st. induction l as [|x l IH]; intros [p u].
  - exists []. apply admits_nil.
  - destruct (normalPass_entry p u x l) as [(it & Hsc & HP & ->) | [-> | ->]].
    + destruct (IH (p ++ [it], u + scheduledDuration it)) as (extra & Hadm).
      exists (it :: extra). now apply (admits_take _ l x p u (p ++ [it]) it).
    + destruct (IH (p, u)) as (extra & Hadm).
      exists extra. now apply admits_skip.
    + exists []. apply admits_nil.
Qed.

End PassLayout.

Section PlanLayout.
Variable tasks : list Task.
Variable morningData : MorningData.
Variable learnedData : gmap string Learned.
Variable today : Today.

Let scoredL := scoredToday tasks morningData learnedData today.

(** The plan is the whole mandatory tier, then a subsequence of the
    critical tier, then a subsequence of the normal tier. *)
Lemma plan_layout :
  exists m c n,
    plan (buildDayPlan tasks morningData learnedData today) = m ++ c ++ n
    /\ map scored m = tier isMandatory scoredL
    /\ sublist (map scored c) (tier isCritical scoredL)
    /\ sublist (map scored n) (tier isNormal scoredL)
    /\ Forall (fun i => pinned i = true /\ wellFormedEntry morningData i) m
    /\ Forall (fun i => pinned i = false /\ wellFormedEntry morningData i) (c ++ n).
Proof.
  subst scoredL. unfold buildDayPlan. cbv zeta. cbn [plan].
  fold (scoredToday tasks morningData learnedData today).
  fold isMandatory isCritical isNormal.
  fold (tier isMandatory (scoredToday tasks morningData learnedData today)).
  fold (tier isCritical (scoredToday tasks morningData learnedData today)).
  fold (tier isNormal (scoredToday tasks morningData learnedData today)).
  set (avail := (hours morningData * 60)%Q).
  destruct (mandatory_layout morningData avail
              (tier isMandatory (scoredToday tasks morningData learnedData today)) ([], 0))
    as (m & (Hmp & _ & Hmall) & Hmmap).
  set (st0 := fold_left (mandatoryStep morningData avail) _ _) in *.
  set (tp := JS.ltb _ _).
  destruct (critical_layout morningData avail tp
              (tier isCritical (scoredToday tasks morningData learnedData today)) st0)
    as (c & Hcp & Hcs & Hcall).
  set (st1 := fold_left (criticalStep morningData avail tp) _ _) in *.
  destruct (normal_layout morningData avail
              (tier isNormal (scoredToday tasks morningData learnedData today)) st1)
    as (n & Hnp & Hns & Hnall).
  cbn [fst app] in Hmp.
  exists m, c, n.
  split; [rewrite Hnp, Hcp, Hmp; now rewrite app_assoc |].
  split; [exact Hmmap |]. split; [exact Hcs |]. split; [exact Hns |].
  split; [exact Hmall |]. apply Forall_app. now split.
Qed.

End PlanLayout.

Section LayoutFacts.

Lemma insert_descends x l :
  scoresDescend l -> scoresDescend (JS.insert byScoreDesc x l).
Proof.
  unfold scoresDescend. induction l as [|y l IH]; intros Hs; cbn [JS.insert].
  - constructor; constructor.
  - apply StronglySorted_inv in Hs. destruct Hs as [Hl Hy].
    destruct (JS.leb (byScoreDesc x y) 0) eqn:Hc.
    + apply leb_le in Hc. unfold byScoreDesc in Hc.
      constructor; [now constructor |]. constructor; [lra |].
      eapply List.Forall_impl; [| exact Hy]. cbn. intros z Hz. lra.
    + apply leb_gt in Hc. unfold byScoreDesc in Hc.
      constructor; [now apply IH |].
      apply List.Forall_forall. intros z Hz.
      apply (Permutation_in _ (insert_perm byScoreDesc x l)) in Hz.
      destruct Hz as [<- | Hz]; [lra |].
      rewrite List.Forall_forall in Hy. now apply Hy.
Qed.

Lemma sort_descends l : scoresDescend (JS.sort byScoreDesc l).
Proof.
  induction l as [|x l IH]; cbn [JS.sort fold_right].
  - constructor.
  - now apply insert_descends.
Qed.

Lemma sublist_descends (l k : list ScoredTask) :
  sublist l k -> scoresDescend k -> scoresDescend l.
Proof.
  unfold scoresDescend. induction 1 as [|x l k Hsub IH|x l k Hsub IH]; intros Hk.
  - constructor.
  - apply StronglySorted_inv in Hk. destruct Hk as [Hk Hx].
    constructor; [now apply IH |].
    apply List.Forall_forall. intros z Hz.
    rewrite List.Forall_forall in Hx. apply Hx.
    apply list_elem_of_In. eapply elem_of_sublist; [| exact Hsub].
    now apply list_elem_of_In.
  - apply StronglySorted_inv in Hk. destruct Hk as [Hk _]. now apply IH.
Qed.

Lemma sublist_In {A : Type} (l k : list A) x : sublist l k -> In x l -> In x k.
Proof.
  intros Hsub Hx. apply list_elem_of_In. eapply elem_of_sublist; [| exact Hsub].
  now apply list_elem_of_In.
Qed.

(** The three kinds split the scored tasks. *)
Lemma tiers_partition (l : list ScoredTask) :
  Permutation (tier isMandatory l ++ tier isCritical l ++ tier isNormal l) l.
Proof.
  unfold tier. rewrite !sort_perm.
  induction l as [|s l IH]; [reflexivity |].
  cbn [List.filter]. unfold isMandatory, isCritical, isNormal in *.
  destruct (mandatory (task s)), (critical (task s)); cbn [negb andb app].
  - now constructor.
  - now constructor.
  - rewrite <- Permutation_middle. now constructor.
  - rewrite app_assoc, <- Permutation_middle, <- app_assoc. now constructor.
Qed.

(** The scored tasks follow the input. *)
Lemma scoredToday_follows tasks morningData learnedData today :
  sublist (map task (scoredToday tasks morningData learnedData today)) tasks.
Proof.
  unfold scoredToday. induction tasks as [|t ts IH]; [constructor |].
  cbn [map filterBoolean].
  destruct (scoreTask t morningData learnedData today) as [s|] eqn:Hs.
  - cbn [filterBoolean List.filter].
    destruct (scoreTask_Some _ _ _ _ _ Hs) as (Ht & _).
    destruct (negb (blocked s)); cbn [map].
    + rewrite Ht. now apply sublist_skip.
    + now apply sublist_cons.
  - now apply sublist_cons.
Qed.

Lemma sublist_map {A B : Type} (f : A -> B) (l k : list A) :
  sublist l k -> sublist (map f l) (map f k).
Proof.
  induction 1; cbn [map]; [constructor | now apply sublist_skip | now apply sublist_cons].
Qed.

Lemma pickVariant_is_some t e s tr tp :
  variants t <> [] -> exists v, pickVariant t e s tr tp = Some v.
Proof.
  intros Hne. destruct tp.
  - destruct (pickVariant_pressure_least t e s tr Hne) as (v & Hv & _). now exists v.
  - rewrite pickVariant_normal_unfold.
    destruct (variants t) as [|v0 vs] eqn:Hv; [congruence |].
    destruct (List.filter _ _); [| destruct (JS.ltb _ _); eauto].
    destruct (JS.sort byDuration (v0 :: vs)) eqn:Hs; [| cbn; eauto].
    now apply sort_nonempty in Hs.
Qed.

End LayoutFacts.

(** X8: the plan lists all mandatory tasks first (pinned): the tasks of
    that run are the whole mandatory tier, the scored mandatory tasks best
    first; then come the admitted critical ones and then the admitted
    normal ones, each run keeping the order of its tier; within each of the
    three runs the scores never increase. *)
Theorem plan_tier_order (tasks : list Task) (morningData : MorningData)
    (learnedData : gmap string Learned) (today : Today) :
  exists m c n,
    plan (buildDayPlan tasks morningData learnedData today) = m ++ c ++ n
    /\ map scored m
       = tier isMandatory (scoredToday tasks morningData learnedData today)
    /\ (forall t, In t tasks -> mandatory t = true ->
                  notAvailableToday t today = false ->
                  isBlocked t learnedData = false ->
                  In t (map (fun i => task (scored i)) m))
    /\ sublist (map scored c)
         (tier isCritical (scoredToday tasks morningData learnedData today))
    /\ sublist (map scored n)
         (tier isNormal (scoredToday tasks morningData learnedData today))
    /\ Forall (fun i => mandatory (task (scored i)) = true /\ pinned i = true) m
    /\ Forall (fun i => mandatory (task (scored i)) = false
                        /\ critical (task (scored i)) = true /\ pinned i = false) c
    /\ Forall (fun i => mandatory (task (scored i)) = false
                        /\ critical (task (scored i)) = false /\ pinned i = false) n
    /\ scoresDescend (map scored m)
    /\ scoresDescend (map scored c)
    /\ scoresDescend (map scored n).
Proof.
  destruct (plan_layout tasks morningData learnedData today)
    as (m & c & n & Hplan & Hm & Hc & Hn & Hmall & Hcnall).
  apply Forall_app in Hcnall. destruct Hcnall as [Hcall Hnall].
  rewrite List.Forall_forall in Hmall, Hcall, Hnall.
  exists m, c, n. split; [exact Hplan |].
  split; [exact Hm |]. split.
  { intros t Ht Hman Hav Hbl.
    destruct (scoreTask_available morningData learnedData today t Hav Hbl)
      as (s & Hs & Hts & Hbs).
    rewrite <- (map_map scored task), Hm. apply in_map_iff. exists s.
    split; [exact Hts |]. apply In_tier. split.
    - apply In_scoredToday. now exists t.
    - unfold isMandatory. now rewrite Hts. }
  split; [exact Hc |]. split; [exact Hn |].
  split; [| split; [| split; [| split; [| split]]]].
  - apply List.Forall_forall. intros i Hi. split; [| exact (proj1 (Hmall i Hi))].
    assert (Hin : In (scored i) (tier isMandatory
                                   (scoredToday tasks morningData learnedData today))).
    { rewrite <- Hm. now apply in_map. }
    apply In_tier in Hin. now destruct Hin.
  - apply List.Forall_forall. intros i Hi.
    assert (Hin : In (scored i) (tier isCritical
                                   (scoredToday tasks morningData learnedData today))).
    { apply (sublist_In _ _ _ Hc). now apply in_map. }
    apply In_tier in Hin. destruct Hin as [_ Hk]. unfold isCritical in Hk.
    apply andb_true_iff in Hk. destruct Hk as [Hk1 Hk2]. apply negb_true_iff in Hk1.
    split; [exact Hk1 |]. split; [exact Hk2 | exact (proj1 (Hcall i Hi))].
  - apply List.Forall_forall. intros i Hi.
    assert (Hin : In (scored i) (tier isNormal
                                   (scoredToday tasks morningData learnedData today))).
    { apply (sublist_In _ _ _ Hn). now apply in_map. }
    apply In_tier in Hin. destruct Hin as [_ Hk]. unfold isNormal in Hk.
    apply andb_true_iff in Hk. destruct Hk as [Hk1 Hk2].
    apply negb_true_iff in Hk1, Hk2.
    split; [exact Hk1 |]. split; [exact Hk2 | exact (proj1 (Hnall i Hi))].
  - rewrite Hm. apply sort_descends.
  - apply (sublist_descends _ _ Hc). apply sort_descends.
  - apply (sublist_descends _ _ Hn). apply sort_descends.
Qed.

Lemma plan_tier_order_witness :
  exists m c n,
    plan (buildDayPlan [reportTask; exerciseTask; breakfast; emailTriage]
            tightDay ∅ aMonday) = m ++ c ++ n
    /\ In breakfast (map (fun i => task (scored i)) m).
Proof.
  destruct (plan_tier_order [reportTask; exerciseTask; breakfast; emailTriage]
              tightDay ∅ aMonday) as (m & c & n & Hplan & _ & Hman & _).
  exists m, c, n. split; [exact Hplan |].
  apply Hman; [right; right; now left | reflexivity | reflexivity | reflexivity].
Defined.

(** X10: a task is scheduled at most once: the plan has no more entries
    than there are input tasks, and when the ids of the input tasks are
    pairwise distinct, so are the ids of the plan's entries. *)
Theorem plan_ids_distinct (tasks : list Task) (morningData : MorningData)
    (learnedData : gmap string Learned) (today : Today) :
  (length (plan (buildDayPlan tasks morningData learnedData today)) <= length tasks)%nat
  /\ (NoDup (map id tasks) ->
      NoDup (map (fun i => id (task (scored i)))
               (plan (buildDayPlan tasks morningData learnedData today)))).
Proof.
  destruct (plan_layout tasks morningData learnedData today)
    as (m & c & n & Hplan & Hm & Hc & Hn & _).
  set (scoredL := scoredToday tasks morningData learnedData today) in *.
  assert (Hsub : submseteq (map scored (m ++ c ++ n)) scoredL).
  { etransitivity; [| apply Permutation_submseteq, tiers_partition].
    rewrite !map_app, Hm.
    apply submseteq_app; [reflexivity |].
    apply submseteq_app; now apply sublist_submseteq. }
  split.
  { rewrite Hplan, <- (length_map scored).
    apply submseteq_length in Hsub. etransitivity; [exact Hsub |].
    rewrite <- (length_map task).
    apply sublist_length, scoredToday_follows. }
  intros Hnd.
  assert (Hids : NoDup (map (fun s => id (task s)) scoredL)).
  { rewrite <- (map_map task id).
    eapply sublist_NoDup; [exact Hnd |].
    apply sublist_map. apply scoredToday_follows. }
  rewrite Hplan.
  change (fun i : PlanItem => id (task (scored i)))
    with (fun i : PlanItem => (fun s => id (task s)) (scored i)).
  rewrite <- (map_map scored (fun s => id (task s))).
  assert (Hsub' : submseteq (map (fun s => id (task s)) (map scored (m ++ c ++ n)))
                    (map (fun s => id (task s)) scoredL)).
  { now apply (fmap_submseteq (fun s => id (task s))). }
  apply submseteq_Permutation in Hsub'. destruct Hsub' as (k & Hk).
  rewrite Hk in Hids. now apply NoDup_app in Hids.
Qed.

Lemma plan_ids_distinct_witness :
  NoDup (map (fun i => id (task (scored i)))
           (plan (buildDayPlan [reportTask; exerciseTask; breakfast; emailTriage]
                    tightDay ∅ aMonday))).
Proof.
  apply plan_ids_distinct. apply (bool_decide_unpack _). vm_compute. reflexivity.
Defined.

(** X23: an entry is marked compressed only when it is not pinned and
    carries a variant: mandatory entries are never marked compressed, and
    neither is an entry scheduled at its task's own duration. *)
Theorem compressed_entry_has_variant (tasks : list Task) (morningData : MorningData)
    (learnedData : gmap string Learned) (today : Today) (i : PlanItem) :
  In i (plan (buildDayPlan tasks morningData learnedData today)) ->
  compressed i = true ->
  pinned i = false
  /\ exists v, variant i = Some v /\ In v (variants (task (scored i)))
               /\ scheduledDuration i = v_duration_minutes v.
Proof.
  intros Hi Hc.
  destruct (plan_layout tasks morningData learnedData today)
    as (m & c & n & Hplan & _ & _ & _ & Hmall & Hcnall).
  rewrite List.Forall_forall in Hmall, Hcnall.
  assert (Hwf : wellFormedEntry morningData i).
  { rewrite Hplan in Hi. apply in_app_iff in Hi.
    destruct Hi as [Hi | Hi]; [now apply Hmall | now apply Hcnall]. }
  destruct Hwf as ((tr & tp & Hv) & Hd & _ & Hcomp).
  destruct (Hcomp Hc) as [Hpin Hsome]. split; [exact Hpin |].
  destruct (variant i) as [v|] eqn:Hvi; [| congruence].
  exists v. split; [reflexivity |]. split; [| exact Hd].
  symmetry in Hv. now apply (pickVariant_in _ _ _ _ _ _ Hv).
Qed.

Lemma compressed_entry_has_variant_witness :
  exists i,
    In i (plan (buildDayPlan [reportTask; exerciseTask] tightDay ∅ aMonday))
    /\ compressed i = true /\ pinned i = false.
Proof.
  assert (Hex : exists i,
             nth_error (plan (buildDayPlan [reportTask; exerciseTask] tightDay ∅ aMonday)) 0
             = Some i /\ compressed i = true).
  { vm_compute. eexists. split; reflexivity. }
  destruct Hex as (i & Hi & Hc). exists i.
  assert (Hin : In i (plan (buildDayPlan [reportTask; exerciseTask] tightDay ∅ aMonday)))
    by (eapply nth_error_In; exact Hi).
  split; [exact Hin |]. split; [exact Hc |].
  now destruct (compressed_entry_has_variant _ _ _ _ i Hin Hc).
Defined.

(** X11: an entry of a task without variants has no variant, runs for the
    task's effective duration and shows the task's name; an entry of a
    task with variants carries one of them, runs for that variant's
    duration and shows both names. *)
Theorem plan_entry_duration (tasks : list Task) (morningData : MorningData)
    (learnedData : gmap string Learned) (today : Today) (i : PlanItem) :
  In i (plan (buildDayPlan tasks morningData learnedData today)) ->
  (variants (task (scored i)) = [] ->
   variant i = None
   /\ scheduledDuration i = effectiveDuration (scored i)
   /\ displayName i = name (task (scored i)))
  /\ (variants (task (scored i)) <> [] ->
      exists v,
        variant i = Some v /\ In v (variants (task (scored i)))
        /\ scheduledDuration i = v_duration_minutes v
        /\ displayName i = (name (task (scored i)) ++ " — " ++ v_name v)%string).
Proof.
  intros Hi.
  destruct (plan_layout tasks morningData learnedData today)
    as (m & c & n & Hplan & _ & _ & _ & Hmall & Hcnall).
  rewrite List.Forall_forall in Hmall, Hcnall.
  assert (Hwf : wellFormedEntry morningData i).
  { rewrite Hplan in Hi. apply in_app_iff in Hi.
    destruct Hi as [Hi | Hi]; [now apply Hmall | now apply Hcnall]. }
  destruct Hwf as ((tr & tp & Hv) & Hd & Hn & _). split.
  - intros Hnil. assert (Hnone : variant i = None).
    { rewrite Hv. unfold pickVariant. now rewrite Hnil. }
    rewrite Hd, Hn, Hnone. now split.
  - intros Hne.
    destruct (pickVariant_is_some (task (scored i)) (energy morningData)
                (sleep morningData) tr tp Hne) as (v & Hsome).
    exists v. rewrite Hd, Hn, Hv, Hsome. split; [reflexivity |].
    split; [now apply (pickVariant_in _ _ _ _ _ _ Hsome) | now split].
Qed.

Lemma plan_entry_duration_witness :
  exists i,
    In i (plan (buildDayPlan [breakfast] tightDay ∅ aMonday))
    /\ exists v, variant i = Some v /\ scheduledDuration i = v_duration_minutes v.
Proof.
  assert (Hex : exists i, nth_error (plan (buildDayPlan [breakfast] tightDay ∅ aMonday)) 0
                          = Some i /\ variants (task (scored i)) <> []).
  { vm_compute. eexists. split; [reflexivity | discriminate]. }
  destruct Hex as (i & Hi & Hne). exists i.
  assert (Hin : In i (plan (buildDayPlan [breakfast] tightDay ∅ aMonday)))
    by (eapply nth_error_In; exact Hi).
  split; [exact Hin |].
  destruct (plan_entry_duration [breakfast] tightDay ∅ aMonday i Hin) as [_ Hsome].
  destruct (Hsome Hne) as (v & Hv & _ & Hd & _). now exists v.
Defined.

(** ** A whole review *)

Section SubmitReviewFacts.
Variable actualTimes : gmap string Z.
Variable actualEnergy : gmap string Q.
Variable todayStr : DateStr.

Lemma submitReview_cons learnedData x rest :
  submitReview learnedData (x :: rest) actualTimes actualEnergy todayStr
  = submitReview
      (applyReview learnedData x (actualTimes !! x) (actualEnergy !! x) todayStr)
      rest actualTimes actualEnergy todayStr.
Proof. reflexivity. Qed.

Lemma submitReview_untouched completed : forall learnedData taskId,
  ~ In taskId completed ->
  submitReview learnedData completed actualTimes actualEnergy todayStr !! taskId
  = learnedData !! taskId.
Proof.
  induction completed as [|x rest IH]; intros learnedData taskId Hnin; [reflexivity |].
  rewrite submitReview_cons, IH by (intros Hin; apply Hnin; now right).
  apply applyReview_other. intros ->. apply Hnin. now left.
Qed.

(** A record that is marked done for today stays so through the loop. *)
Lemma submitReview_keeps_done completed : forall learnedData taskId r,
  learnedData !! taskId = Some r ->
  completed_today r = true -> last_done r = Some todayStr ->
  exists r', submitReview learnedData completed actualTimes actualEnergy todayStr !! taskId
             = Some r'
             /\ completed_today r' = true /\ last_done r' = Some todayStr.
Proof.
  induction completed as [|x rest IH]; intros learnedData taskId r Hr Hc Hl.
  - exists r. now split.
  - rewrite submitReview_cons. destruct (String.eqb_spec x taskId) as [-> | Hne].
    + eapply IH; [apply applyReview_lookup | reflexivity | reflexivity].
    + eapply IH; [| exact Hc | exact Hl]. now rewrite applyReview_other.
Qed.

Lemma submitReview_marks_done completed : forall learnedData taskId,
  In taskId completed ->
  exists r, submitReview learnedData completed actualTimes actualEnergy todayStr !! taskId
            = Some r
            /\ completed_today r = true /\ last_done r = Some todayStr.
Proof.
  induction completed as [|x rest IH]; intros learnedData taskId Hin; [destruct Hin |].
  rewrite submitReview_cons. destruct (String.eqb_spec x taskId) as [-> | Hne].
  - eapply submitReview_keeps_done; [apply applyReview_lookup | reflexivity | reflexivity].
  - destruct Hin as [Heq | Hin]; [contradiction | now apply IH].
Qed.

Lemma submitReview_once completed : forall learnedData taskId,
  NoDup completed -> In taskId completed ->
  submitReview learnedData completed actualTimes actualEnergy todayStr !! taskId
  = Some (reviewedRecord (default freshLearned (learnedData !! taskId))
            (actualTimes !! taskId) (actualEnergy !! taskId) todayStr).
Proof.
  induction completed as [|x rest IH]; intros learnedData taskId Hnd Hin; [destruct Hin |].
  apply NoDup_cons in Hnd. destruct Hnd as [Hx Hnd].
  rewrite submitReview_cons. destruct (String.eqb_spec x taskId) as [-> | Hne].
  - rewrite submitReview_untouched by (now rewrite <- list_elem_of_In).
    apply applyReview_lookup.
  - destruct Hin as [Heq | Hin]; [contradiction |].
    rewrite IH by assumption. now rewrite applyReview_other.
Qed.

End SubmitReviewFacts.

(** X13: [submitReview] leaves the records of the tasks not completed as
    they are; every completed task ends with [completed_today] set and
    [last_done] at the date of the review; and, the completed ids being
    distinct, its record is the one review of its previous record. *)
Theorem submitReview_spec (learnedData : gmap string Learned) (completed : list string)
    (actualTimes : gmap string Z) (actualEnergy : gmap string Q) (todayStr : DateStr)
    (taskId : string) :
  let after := submitReview learnedData completed actualTimes actualEnergy todayStr in
  (~ In taskId completed -> after !! taskId = learnedData !! taskId)
  /\ (In taskId completed ->
      exists r, after !! taskId = Some r
                /\ completed_today r = true /\ last_done r = Some todayStr)
  /\ (NoDup completed -> In taskId completed ->
      after !! taskId
      = Some (reviewedRecord (default freshLearned (learnedData !! taskId))
                (actualTimes !! taskId) (actualEnergy !! taskId) todayStr)).
Proof.
  intros after. subst after. split; [| split].
  - apply submitReview_untouched.
  - apply submitReview_marks_done.
  - apply submitReview_once.
Qed.

Lemma submitReview_spec_witness :
  exists r,
    submitReview emailLearned ["email-triage"; "exercise"]%string
      {[ "exercise"%string := 50 ]} ∅ 12 !! "exercise"%string = Some r
    /\ count r = 1 /\ avg_duration r = 50 /\ completed_today r = true.
Proof.
  destruct (submitReview_spec emailLearned ["email-triage"; "exercise"]%string
              {[ "exercise"%string := 50 ]} ∅ 12 "exercise") as (_ & _ & Honce).
  eexists. split.
  - apply Honce.
    + apply (bool_decide_unpack _). vm_compute. reflexivity.
    + right. now left.
  - vm_compute. repeat split.
Defined.

(** X14: a review can only unblock: a task all of whose blockers are
    among the completed tasks, or were already completed today, is not
    blocked after [submitReview], and the next plan does not list it as
    blocked. *)
Theorem review_unblocks (learnedData : gmap string Learned) (completed : list string)
    (actualTimes : gmap string Z) (actualEnergy : gmap string Q) (todayStr : DateStr)
    (t : Task) :
  (forall b, In b (blockers t) -> In b completed \/ completedToday learnedData b = true) ->
  let after := submitReview learnedData completed actualTimes actualEnergy todayStr in
  isBlocked t after = false
  /\ forall tasks morningData today,
       ~ In t (blockedTasks (buildDayPlan tasks morningData after today)).
Proof.
  intros Hall after.
  assert (Hnb : isBlocked t after = false).
  { unfold isBlocked. apply not_true_iff_false. intros Hex.
    apply existsb_exists in Hex. destruct Hex as (b & Hb & Hc).
    apply negb_true_iff in Hc. unfold completedToday in Hc.
    destruct (in_dec String.string_dec b completed) as [Hin | Hnin].
    - destruct (submitReview_marks_done actualTimes actualEnergy todayStr
                  completed learnedData b Hin) as (r & Hr & Hdone & _).
      fold after in Hr. rewrite Hr in Hc. congruence.
    - destruct (Hall b Hb) as [Hin | Hdone]; [contradiction |].
      subst after. rewrite submitReview_untouched in Hc by assumption.
      unfold completedToday in Hdone. congruence. }
  split; [exact Hnb |].
  intros tasks morningData today. unfold buildDayPlan. cbn [blockedTasks].
  rewrite filter_In. intros [_ Hb]. unfold scoreTask in Hb.
  destruct (notAvailableToday t today); [discriminate |].
  rewrite Hnb in Hb. discriminate.
Qed.

Lemma review_unblocks_witness :
  In followUp (blockedTasks (buildDayPlan [followUp] shortDay ∅ aMonday))
  /\ ~ In followUp
         (blockedTasks
            (buildDayPlan [followUp] shortDay
               (submitReview ∅ ["q1-report"%string] ∅ ∅ 0) aMonday)).
Proof.
  split; [vm_compute; now left |].
  destruct (review_unblocks ∅ ["q1-report"%string] ∅ ∅ 0 followUp) as [_ Hplan].
  - intros b [<- | []]. left. now left.
  - apply Hplan.
Defined.

(** ** The points bank *)

Section LedgerFacts.

Lemma logTotal_firstn_short (l : list LogEntry) n :
  (length l <= n)%nat -> logTotal (firstn n l) = logTotal l.
Proof. intros Hlen. now rewrite firstn_all2. Qed.

Lemma capped_cons (e : LogEntry) (l : list LogEntry) :
  (length (firstn 200 (e :: l)) <= 200)%nat.
Proof. apply firstn_le_length. Qed.

End LedgerFacts.

(** X15: [redeemReward] never overdraws: with fewer points than the cost
    the bank and the log stay as they are; otherwise the bank goes down by
    the cost and the newest log entry records minus the cost.  A bank that
    is not negative stays so. *)
Theorem redeemReward_never_overdraws (st : Ledger) (reward : Reward) (date : string)
    (ts : Z) :
  let st' := redeemReward st reward date ts in
  (pointsBank st < cost reward -> st' = st)
  /\ (cost reward <= pointsBank st ->
      pointsBank st' = pointsBank st - cost reward
      /\ exists e, head (pointsLog st') = Some e /\ log_pts e = - cost reward)
  /\ (0 <= pointsBank st -> 0 <= pointsBank st').
Proof.
  intros st'. subst st'. unfold redeemReward.
  destruct (Z.ltb_spec (pointsBank st) (cost reward)) as [Hlt | Hge].
  - split; [reflexivity |]. split; [lia | tauto].
  - split; [lia |]. split.
    + intros _. cbn. split; [reflexivity |]. eexists. split; reflexivity.
    + intros H0. cbn. lia.
Qed.

Lemma redeemReward_never_overdraws_witness :
  let st := {| pointsBank := 100; pointsLog := [] |} in
  pointsBank st < cost gamingReward /\ redeemReward st gamingReward "1/1/2026" 0 = st.
Proof.
  intros st. split; [reflexivity |].
  now apply (redeemReward_never_overdraws st gamingReward "1/1/2026" 0).
Defined.

(** X16: the log never holds more than 200 entries after an award, nor
    after a redemption of a log that held at most 200; and while the log
    holds fewer than 200 entries, a bank equal to the sum of the logged
    points stays equal to it through awards and redemptions. *)
Theorem ledger_log_invariants (st : Ledger) (pts : Z) (reason date : string) (ts : Z)
    (reward : Reward) :
  (length (pointsLog (awardPoints st pts reason date ts)) <= 200)%nat
  /\ ((length (pointsLog st) <= 200)%nat ->
      (length (pointsLog (redeemReward st reward date ts)) <= 200)%nat)
  /\ ((length (pointsLog st) < 200)%nat ->
      pointsBank st = logTotal (pointsLog st) ->
      pointsBank (awardPoints st pts reason date ts)
      = logTotal (pointsLog (awardPoints st pts reason date ts))
      /\ pointsBank (redeemReward st reward date ts)
         = logTotal (pointsLog (redeemReward st reward date ts))).
Proof.
  split; [apply capped_cons |]. split.
  - intros Hlen. unfold redeemReward.
    destruct (pointsBank st <? cost reward); [exact Hlen | apply capped_cons].
  - intros Hlen Hsum. split.
    + unfold awardPoints. cbn [pointsBank pointsLog].
      rewrite logTotal_firstn_short by (cbn [length]; lia).
      cbn [logTotal fold_right log_pts]. fold (logTotal (pointsLog st)). lia.
    + unfold redeemReward.
      destruct (pointsBank st <? cost reward); [exact Hsum |].
      cbn [pointsBank pointsLog].
      rewrite logTotal_firstn_short by (cbn [length]; lia).
      cbn [logTotal fold_right log_pts]. fold (logTotal (pointsLog st)). lia.
Qed.

Lemma ledger_log_invariants_witness :
  let st := awardPoints {| pointsBank := 0; pointsLog := [] |} 38 "Exercise" "1/1/2026" 0 in
  pointsBank (redeemReward st gamingReward "1/1/2026" 1)
  = logTotal (pointsLog (redeemReward st gamingReward "1/1/2026" 1)).
Proof.
  intros st.
  destruct (ledger_log_invariants st 0 "" "1/1/2026" 1 gamingReward) as (_ & _ & Hsum).
  destruct Hsum as [_ Hredeem]; [cbn; lia | reflexivity | exact Hredeem].
Defined.

(** ** Adding and editing tasks *)

Section TaskListFacts.

Lemma existsb_id_false (clean : list Task) (t : Task) :
  existsb (fun n => String.eqb (id n) (id t)) clean = false <->
  forall n, In n clean -> id n <> id t.
Proof.
  rewrite <- not_true_iff_false, existsb_exists. split.
  - intros Hno n Hn Heq. apply Hno. exists n. split; [exact Hn | now apply String.eqb_eq].
  - intros Hall (n & Hn & Heq). apply String.eqb_eq in Heq. now apply (Hall n).
Qed.

Lemma filter_map_NoDup {A B : Type} (f : A -> B) (p : A -> bool) (l : list A) :
  NoDup (map f l) -> NoDup (map f (List.filter p l)).
Proof.
  intros Hnd. eapply sublist_NoDup; [exact Hnd |].
  apply sublist_map. clear Hnd. induction l as [|x l IH]; cbn [List.filter]; [constructor |].
  destruct (p x); [now apply sublist_skip | now apply sublist_cons].
Qed.

Lemma confirmAddTask_unfold tasks parsedPreview :
  confirmAddTask tasks parsedPreview
  = List.filter
      (fun ex => negb (existsb (fun n => String.eqb (id n) (id ex))
                         (map parsed (List.filter _approved parsedPreview)))) tasks
    ++ map parsed (List.filter _approved parsedPreview).
Proof.
  unfold confirmAddTask. destruct parsedPreview as [|p ps]; [| reflexivity].
  cbn [List.filter map existsb negb]. rewrite app_nil_r.
  induction tasks as [|t ts IH]; [reflexivity |]. cbn [List.filter]. now rewrite <- IH.
Qed.

End TaskListFacts.

(** X17: [confirmAddTask] saves every approved parsed task, keeps exactly
    the existing tasks whose id no approved task carries, and keeps the ids
    pairwise distinct when those of the existing tasks and those of the
    approved tasks are. *)
Theorem confirmAddTask_spec (tasks : list Task) (parsedPreview : list PreviewItem) :
  let saved := confirmAddTask tasks parsedPreview in
  let approved := map parsed (List.filter _approved parsedPreview) in
  (forall n, In n approved -> In n saved)
  /\ (forall t, In t tasks -> (forall n, In n approved -> id n <> id t) -> In t saved)
  /\ (forall t, In t saved ->
                In t approved
                \/ (In t tasks /\ forall n, In n approved -> id n <> id t))
  /\ (NoDup (map id tasks) -> NoDup (map id approved) -> NoDup (map id saved)).
Proof.
  intros saved approved. subst saved. rewrite confirmAddTask_unfold. fold approved.
  split; [| split; [| split]].
  - intros n Hn. apply in_or_app. now right.
  - intros t Ht Hfree. apply in_or_app. left. apply filter_In.
    split; [exact Ht |]. apply negb_true_iff. now apply existsb_id_false.
  - intros t Ht. apply in_app_or in Ht. destruct Ht as [Ht | Ht]; [right | now left].
    apply filter_In in Ht. destruct Ht as [Ht Hfree]. split; [exact Ht |].
    apply negb_true_iff in Hfree. now apply existsb_id_false.
  - intros Hold Hnew. rewrite map_app. apply NoDup_app. split; [| split].
    + now apply filter_map_NoDup.
    + intros x Hx Hx'. apply list_elem_of_In in Hx, Hx'.
      apply in_map_iff in Hx, Hx'.
      destruct Hx as (t & <- & Ht). destruct Hx' as (n & Heq & Hn).
      apply filter_In in Ht. destruct Ht as [_ Hfree].
      apply negb_true_iff in Hfree.
      exact (proj1 (existsb_id_false approved t) Hfree n Hn Heq).
    + exact Hnew.
Qed.

Lemma confirmAddTask_spec_witness :
  let preview := [ {| parsed := followUp; _approved := true; confidence_notes := "" |};
                   {| parsed := weeklyReview; _approved := false; confidence_notes := "" |} ] in
  In followUp (confirmAddTask [emailTriage] preview)
  /\ In emailTriage (confirmAddTask [emailTriage] preview).
Proof.
  intros preview.
  destruct (confirmAddTask_spec [emailTriage] preview) as (Hnew & Hold & _).
  split.
  - apply Hnew. now left.
  - apply Hold; [now left |]. intros n [<- | []]. discriminate.
Defined.

(** X18: [togglePreviewItem] flips the approval of the item at the index
    and of no other, keeps the length, and undoes itself when applied
    twice. *)
Theorem togglePreviewItem_spec (idx : nat) (prev : list PreviewItem) :
  length (togglePreviewItem idx prev) = length prev
  /\ (forall j p, prev !! j = Some p ->
        exists p', togglePreviewItem idx prev !! j = Some p'
                   /\ parsed p' = parsed p
                   /\ confidence_notes p' = confidence_notes p
                   /\ _approved p' = if Nat.eqb j idx then negb (_approved p)
                                     else _approved p)
  /\ togglePreviewItem idx (togglePreviewItem idx prev) = prev.
Proof.
  unfold togglePreviewItem. split; [apply length_imap |]. split.
  - intros j p Hp. rewrite list_lookup_imap, Hp. cbn.
    destruct (Nat.eqb j idx); eexists; (split; [reflexivity |]); now repeat split.
  - apply list_eq. intros j. rewrite !list_lookup_imap.
    destruct (prev !! j) as [[q a c]|]; [| reflexivity]. cbn.
    destruct (Nat.eqb j idx); cbn; [| reflexivity].
    now rewrite negb_involutive.
Qed.

Lemma togglePreviewItem_spec_witness :
  let preview := [ {| parsed := followUp; _approved := true; confidence_notes := "" |};
                   {| parsed := weeklyReview; _approved := true; confidence_notes := "" |} ] in
  exists p, togglePreviewItem 1 preview !! 1%nat = Some p
            /\ parsed p = weeklyReview /\ _approved p = false.
Proof.
  intros preview.
  destruct (togglePreviewItem_spec 1 preview) as (_ & Hflip & _).
  destruct (Hflip 1%nat _ eq_refl) as (p & Hp & Hparsed & _ & Happ).
  exists p. split; [exact Hp |]. split; [exact Hparsed | exact Happ].
Defined.

(** X19: [toggleDay] flips the presence of the day and of no other; a day
    switched on and then off again leaves the list as it was. *)
Theorem toggleDay_spec (cur : list string) (d : string) :
  (In d (toggleDay cur d) <-> ~ In d cur)
  /\ (forall x, x <> d -> (In x (toggleDay cur d) <-> In x cur))
  /\ (~ In d cur -> toggleDay (toggleDay cur d) d = cur).
Proof.
  assert (Hex : existsb (String.eqb d) cur = true <-> In d cur).
  { rewrite existsb_exists. split.
    - intros (x & Hx & Heq). apply String.eqb_eq in Heq. now subst.
    - intros Hd. exists d. split; [exact Hd | apply String.eqb_refl]. }
  assert (Hfilter : forall x l, In x (List.filter (fun y => negb (String.eqb y d)) l)
                                <-> In x l /\ x <> d).
  { intros x l. rewrite filter_In, negb_true_iff.
    destruct (String.eqb_spec x d); intuition congruence. }
  unfold toggleDay at 1 2. destruct (in_dec String.string_dec d cur) as [Hd | Hnd].
  - rewrite (proj2 Hex Hd). split; [| split].
    + rewrite Hfilter. tauto.
    + intros x Hx. rewrite Hfilter. tauto.
    + tauto.
  - assert (Hd : existsb (String.eqb d) cur = false)
      by (apply not_true_iff_false; now rewrite Hex).
    rewrite Hd. split; [| split].
    + rewrite in_app_iff. cbn. tauto.
    + intros x Hx. rewrite in_app_iff. cbn. intuition congruence.
    + intros _. unfold toggleDay.
      assert (Hin : existsb (String.eqb d) (cur ++ [d]) = true).
      { rewrite existsb_app. cbn. rewrite String.eqb_refl. now rewrite orb_true_r. }
      rewrite Hd, Hin, List.filter_app. cbn. rewrite String.eqb_refl. cbn.
      rewrite app_nil_r. clear Hin Hd Hex.
      induction cur as [|y cur IH]; [reflexivity |]. cbn.
      destruct (String.eqb_spec y d) as [-> | Hne]; [exfalso; apply Hnd; now left |].
      cbn. f_equal. apply IH. intros Hin. apply Hnd. now right.
Qed.

Lemma toggleDay_spec_witness :
  ~ In "sun"%string ["fri"; "sat"]%string
  /\ toggleDay (toggleDay ["fri"; "sat"]%string "sun") "sun" = ["fri"; "sat"]%string.
Proof.
  assert (Hnin : ~ In "sun"%string ["fri"; "sat"]%string).
  { intros [H | [H | []]]; discriminate. }
  split; [exact Hnin |].
  now apply (toggleDay_spec ["fri"; "sat"]%string "sun").
Defined.

(** X20: a task with no available day listed is offered every day: it is
    never dropped by the weekday test, and switching off the only day of a
    task makes the task available on all days. *)
Theorem no_days_means_every_day (t : Task) (morningData : MorningData)
    (learnedData : gmap string Learned) (today : Today) :
  (days_available t = [] -> scoreTask t morningData learnedData today <> None)
  /\ (forall d, days_available t = [d] ->
                scoreTask (setDaysAvailable t (toggleDay (days_available t) d))
                  morningData learnedData today <> None).
Proof.
  assert (Hempty : forall t0, days_available t0 = [] ->
                              scoreTask t0 morningData learnedData today <> None).
  { intros t0 Hd Hnone. apply scoreTask_None in Hnone.
    unfold notAvailableToday in Hnone. rewrite Hd in Hnone. discriminate. }
  split; [apply Hempty |].
  intros d Hd. apply Hempty. cbn [days_available setDaysAvailable].
  rewrite Hd. unfold toggleDay. cbn. now rewrite String.eqb_refl.
Qed.

Lemma no_days_means_every_day_witness :
  scoreTask (setDaysAvailable weeklyReview []) shortDay ∅ aMonday <> None
  /\ scoreTask weeklyReview shortDay ∅ aMonday = None.
Proof.
  split; [| reflexivity].
  now apply (no_days_means_every_day (setDaysAvailable weeklyReview []) shortDay ∅ aMonday).
Defined.

(** X21: a deleted task is gone from the next plan: no entry of the plan
    and no task of the blocked list carries its id. *)
Theorem deleted_task_not_planned (tasks : list Task) (editingTask : Task)
    (morningData : MorningData) (learnedData : gmap string Learned) (today : Today) :
  let r := buildDayPlan (deleteTask tasks editingTask) morningData learnedData today in
  (forall i, In i (plan r) -> id (task (scored i)) <> id editingTask)
  /\ (forall t, In t (blockedTasks r) -> id t <> id editingTask).
Proof.
  intros r. subst r.
  assert (Hdel : forall t, In t (deleteTask tasks editingTask) -> id t <> id editingTask).
  { intros t Ht. unfold deleteTask in Ht. apply filter_In in Ht.
    destruct Ht as [_ Hne]. apply negb_true_iff in Hne. now apply String.eqb_neq. }
  split.
  - intros i Hi. destruct (plan_item_origin _ _ _ _ _ Hi) as (t & Ht & Hs & _).
    destruct (scoreTask_Some _ _ _ _ _ Hs) as (<- & _). now apply Hdel.
  - intros t Ht. apply Hdel. unfold buildDayPlan in Ht. cbn [blockedTasks] in Ht.
    now apply filter_In in Ht.
Qed.

Lemma deleted_task_not_planned_witness :
  Forall (fun i => id (task (scored i)) <> "email-triage"%string)
    (plan (buildDayPlan (deleteTask [emailTriage; longMandatory] emailTriage)
             workDay ∅ aMonday)).
Proof.
  apply List.Forall_forall.
  apply (deleted_task_not_planned [emailTriage; longMandatory] emailTriage workDay ∅ aMonday).
Defined.

(** X22: saving an edited task keeps the list of ids as it is (nothing is
    added, removed or moved), puts the edited task at every place that had
    its id, and leaves the list unchanged when no task has that id. *)
Theorem saveTask_spec (tasks : list Task) (updated : Task) :
  map id (saveTask tasks updated) = map id tasks
  /\ (forall j t, tasks !! j = Some t ->
                  saveTask tasks updated !! j
                  = Some (if String.eqb (id t) (id updated) then updated else t))
  /\ ((forall t, In t tasks -> id t <> id updated) -> saveTask tasks updated = tasks).
Proof.
  unfold saveTask. split; [| split].
  - induction tasks as [|t ts IH]; [reflexivity |]. cbn [map]. rewrite IH. f_equal.
    destruct (String.eqb_spec (id t) (id updated)); congruence.
  - intros j t Ht.
    change (map ?f tasks) with (f <$> tasks). now rewrite list_lookup_fmap, Ht.
  - intros Hall. induction tasks as [|t ts IH]; [reflexivity |]. cbn [map].
    rewrite IH by (intros t' Ht'; apply Hall; now right). f_equal.
    destruct (String.eqb_spec (id t) (id updated)) as [Heq | _]; [| reflexivity].
    exfalso. apply (Hall t); [now left | exact Heq].
Qed.

Lemma saveTask_spec_witness :
  saveTask [emailTriage; weeklyReview] followUp = [emailTriage; weeklyReview].
Proof.
  apply (saveTask_spec [emailTriage; weeklyReview] followUp).
  intros t [<- | [<- | []]]; discriminate.
Defined.

(** ** Word count *)

Section WordCountFacts.

Lemma isNonEmpty_rev (s : list N) : isNonEmpty (rev s) = isNonEmpty s.
Proof.
  destruct s as [|c s]; [reflexivity |]. cbn [rev].
  now destruct (rev s).
Qed.

Lemma splitSpaces_runs s : forall cur inSpace,
  (inSpace = true -> cur = []) ->
  length (List.filter isNonEmpty (splitSpaces s cur inSpace))
  = (wordRuns s (isNonEmpty cur) + (if isNonEmpty cur then 1 else 0))%nat.
Proof.
  induction s as [|c s IH]; intros cur inSpace Hinv; cbn [splitSpaces wordRuns].
  - cbn [List.filter]. rewrite isNonEmpty_rev. now destruct (isNonEmpty cur).
  - destruct (isWhiteSpace c).
    + destruct inSpace.
      * rewrite (Hinv eq_refl). rewrite IH by reflexivity. reflexivity.
      * cbn [List.filter]. rewrite isNonEmpty_rev.
        destruct (isNonEmpty cur); cbn [length]; rewrite IH by reflexivity; cbn; lia.
    + rewrite IH by discriminate. cbn [isNonEmpty].
      destruct (isNonEmpty cur); lia.
Qed.

Lemma wordRuns_trimStart s : wordRuns (trimStart s) false = wordRuns s false.
Proof.
  induction s as [|c s IH]; [reflexivity |]. cbn [trimStart wordRuns].
  destruct (isWhiteSpace c) eqn:Hc; [exact IH |]. cbn [wordRuns]. now rewrite Hc.
Qed.

Lemma wordRuns_app_space s c : forall b,
  isWhiteSpace c = true -> wordRuns (s ++ [c]) b = wordRuns s b.
Proof.
  induction s as [|x s IH]; intros b Hc; cbn [app wordRuns].
  - now rewrite Hc.
  - destruct (isWhiteSpace x); now rewrite IH.
Qed.

(** Dropping the white space at the end does not change the runs. *)
Lemma wordRuns_trimEnd r : forall b,
  wordRuns (rev (trimStart r)) b = wordRuns (rev r) b.
Proof.
  induction r as [|c r IH]; intros b; [reflexivity |]. cbn [trimStart].
  destruct (isWhiteSpace c) eqn:Hc; [| reflexivity].
  cbn [rev]. now rewrite wordRuns_app_space, IH.
Qed.

Lemma wordRuns_trim s : wordRuns (trim s) false = wordRuns s false.
Proof.
  unfold trim. now rewrite wordRuns_trimEnd, rev_involutive, wordRuns_trimStart.
Qed.

Lemma wordRuns_app a : forall b inWord,
  wordRuns (a ++ b) inWord
  = (wordRuns a inWord
     + wordRuns b (match rev a with
                   | [] => inWord
                   | c :: _ => negb (isWhiteSpace c)
                   end))%nat.
Proof.
  induction a as [|x a IH]; intros b inWord; [reflexivity |].
  cbn [app wordRuns rev].
  assert (Hlast : match rev a ++ [x] with
                  | [] => inWord
                  | c :: _ => negb (isWhiteSpace c)
                  end
                  = match rev a with
                    | [] => negb (isWhiteSpace x)
                    | c :: _ => negb (isWhiteSpace c)
                    end) by (now destruct (rev a)).
  rewrite Hlast.
  destruct (isWhiteSpace x); rewrite IH; cbn [negb]; lia.
Qed.

Lemma wordRuns_spaces sp : forall b,
  Forall (fun c => isWhiteSpace c = true) sp -> wordRuns sp b = 0%nat.
Proof.
  induction sp as [|c sp IH]; intros b Hall; [reflexivity |].
  apply Forall_cons in Hall. destruct Hall as [Hc Hall].
  cbn [wordRuns]. rewrite Hc. now apply IH.
Qed.

End WordCountFacts.

(** X24: [wordCount] is the number of maximal runs of code units that are
    not white space: it is 0 for a missing or blank text, 1 for a text
    without white space that is not empty, and the count of two texts
    joined by white space is the sum of their counts. *)
Theorem wordCount_spec (s : list N) :
  wordCount (Some s) = wordRuns s false
  /\ wordCount None = 0%nat
  /\ (Forall (fun c => isWhiteSpace c = true) s -> wordCount (Some s) = 0%nat)
  /\ (s <> [] -> Forall (fun c => isWhiteSpace c = false) s -> wordCount (Some s) = 1%nat)
  /\ (forall sp s', sp <> [] -> Forall (fun c => isWhiteSpace c = true) sp ->
                    wordCount (Some (s ++ sp ++ s'))
                    = (wordCount (Some s) + wordCount (Some s'))%nat).
Proof.
  assert (Hruns : forall l, wordCount (Some l) = wordRuns l false).
  { intros l. unfold wordCount. cbn [default].
    rewrite splitSpaces_runs by discriminate. cbn [isNonEmpty].
    rewrite Nat.add_0_r. apply wordRuns_trim. }
  split; [apply Hruns |]. split; [reflexivity |]. split; [| split].
  - intros Hall. rewrite Hruns. now apply wordRuns_spaces.
  - intros Hne Hall. rewrite Hruns. destruct s as [|c s]; [congruence |].
    apply Forall_cons in Hall. destruct Hall as [Hc Hall].
    cbn [wordRuns]. rewrite Hc. cbn.
    assert (Hin : forall l, Forall (fun c => isWhiteSpace c = false) l ->
                            wordRuns l true = 0%nat).
    { induction l as [|x l IH]; intros Hl; [reflexivity |].
      apply Forall_cons in Hl. destruct Hl as [Hx Hl].
      cbn [wordRuns]. rewrite Hx. now apply IH. }
    now rewrite Hin.
  - intros sp s' Hne Hall. rewrite !Hruns, !wordRuns_app.
    rewrite (wordRuns_spaces sp _ Hall).
    destruct (rev sp) as [|c r] eqn:Hrev.
    { apply (f_equal (@rev N)) in Hrev. rewrite rev_involutive in Hrev. cbn in Hrev.
      congruence. }
    assert (Hc : isWhiteSpace c = true).
    { rewrite List.Forall_forall in Hall. apply Hall. apply in_rev.
      rewrite Hrev. now left. }
    rewrite Hc. cbn [negb]. lia.
Qed.

Lemma wordCount_spec_witness :
  (* "so much" , " depends" *)
  wordCount (Some ([115; 111; 32; 109; 117; 99; 104] ++ [10; 32]
                   ++ [100; 101; 112; 101; 110; 100; 115])%N)
  = 3%nat.
Proof.
  destruct (wordCount_spec [115; 111; 32; 109; 117; 99; 104]%N) as (_ & _ & _ & _ & Hsum).
  rewrite (Hsum [10; 32]%N); [reflexivity | discriminate |].
  repeat constructor.
Defined.
